(** * The command dispatcher and the language-model tool bridge

    A shallow embedding of two classes of the workbench:

    - [CommandService] (workbench command dispatcher): [executeCommand],
      [_tryExecuteCommand] and the constructor that latches
      [_extensionHostIsReady];
    - [ExtHostLanguageModelTools]
      (src/vs/workbench/api/common/extHostLanguageModelTools.ts): the three
      maps, [invokeTool], [$invokeTool], [$acceptToolDelta],
      [$countTokensForInvokation], [registerTool] and the constructor.  The
      [$]-prefixed methods, which the peer process calls, are named [rpc_...]
      here.  The [tools] getter, a listing in insertion order, is left out.

    Both classes are promise-based.  A method is embedded as a finite tree of
    the steps it performs ([Prog]): reads and writes of the object's fields,
    synchronous calls into collaborators, and suspension points ([await],
    [.then]).  [run_sync] executes a tree up to its first suspension, which is
    how the single-threaded JavaScript event loop runs it; a pool of suspended
    continuations gives the interleavings. *)

From Stdlib Require Import ZArith Lia.
From stdpp Require Import base option list strings gmap pretty.

Set Default Proof Using "Type".
Set Warnings "-register-all".

(** ** Values crossing the API *)

(** A thenable handed out by a collaborator, or built by [Promise.all]. *)
Inductive Thenable : Type :=
| Pending (h : nat)
| Promise_all (ts : list Thenable).

(** What the source types as [any]. *)
Inductive JsVal : Type :=
| JsUndefined
| JsBool (b : bool)
| JsNumber (n : Z)
| JsString (s : string)
| JsArray (vs : list JsVal)
| JsObject (fields : list (string * JsVal))
| JsThenable (t : Thenable).

(** [new Error(message)]. *)
Inductive JsError : Type :=
| Error (message : string).

(** How a promise settles, and how a call guarded by try/catch ends. *)
Inductive Outcome (R : Type) : Type :=
| Fulfilled (r : R)
| Rejected (e : JsError).
Arguments Fulfilled {R} r.
Arguments Rejected {R} e.

(** ** Programs *)

(** The collaborators of a class: what it calls synchronously and what it
    waits for, each with the type of the answer. *)
Record Sig : Type := MkSig {
  call : Type;
  call_res : call -> Type;
  wait : Type;
  wait_res : wait -> Type
}.

Inductive Prog (Sg : Sig) (St A : Type) : Type :=
| Ret (a : A)
| Throw (e : JsError)
| Get (k : St -> Prog Sg St A)
| Modify (f : St -> St) (k : Prog Sg St A)
| Call (c : call Sg) (k : call_res Sg c -> Prog Sg St A)
| Await (w : wait Sg) (k : Outcome (wait_res Sg w) -> Prog Sg St A).
Arguments Ret {Sg St A} a.
Arguments Throw {Sg St A} e.
Arguments Get {Sg St A} k.
Arguments Modify {Sg St A} f k.
Arguments Call {Sg St A} c k.
Arguments Await {Sg St A} w k.

Fixpoint bind {Sg St A B} (p : Prog Sg St A) (f : A -> Prog Sg St B) : Prog Sg St B :=
  match p with
  | Ret a => f a
  | Throw e => Throw e
  | Get k => Get (fun s => bind (k s) f)
  | Modify g k => Modify g (bind k f)
  | Call c k => Call c (fun r => bind (k r) f)
  | Await w k => Await w (fun o => bind (k o) f)
  end.

(** stdpp's monad notations: [x ← p; q] and [p;; q]. *)
#[global] Instance Prog_ret {Sg St} : MRet (Prog Sg St) := fun A a => Ret a.
#[global] Instance Prog_bind {Sg St} : MBind (Prog Sg St) := fun A B f p => bind p f.

Definition of_outcome {Sg St A} (o : Outcome A) : Prog Sg St A :=
  match o with
  | Fulfilled r => Ret r
  | Rejected e => Throw e
  end.

(** [await w]: suspend, then continue with the value or rethrow. *)
Definition await {Sg St} (w : wait Sg) : Prog Sg St (wait_res Sg w) :=
  Await w of_outcome.

Definition modify {Sg St} (f : St -> St) : Prog Sg St unit :=
  Modify f (Ret tt).

(** [try { p } finally { fin }]: [fin] runs when [p] returns and when it
    throws; a throw of [fin] itself replaces the pending result. *)
Fixpoint try_finally {Sg St A} (p : Prog Sg St A) (fin : Prog Sg St unit) : Prog Sg St A :=
  match p with
  | Ret a => fin;; Ret a
  | Throw e => fin;; Throw e
  | Get k => Get (fun s => try_finally (k s) fin)
  | Modify g k => Modify g (try_finally k fin)
  | Call c k => Call c (fun r => try_finally (k r) fin)
  | Await w k => Await w (fun o => try_finally (k o) fin)
  end.

(** [try { p } catch (err) { h err }]. *)
Fixpoint try_catch {Sg St A} (p : Prog Sg St A) (h : JsError -> Prog Sg St A) : Prog Sg St A :=
  match p with
  | Ret a => Ret a
  | Throw e => h e
  | Get k => Get (fun s => try_catch (k s) h)
  | Modify g k => Modify g (try_catch k h)
  | Call c k => Call c (fun r => try_catch (k r) h)
  | Await w k => Await w (fun o => try_catch (k o) h)
  end.

(** ** Running a program up to its first suspension *)

Inductive Status (Sg : Sig) (St A : Type) : Type :=
| Done (o : Outcome A)
| Suspended (w : wait Sg) (k : Outcome (wait_res Sg w) -> Prog Sg St A).
Arguments Done {Sg St A} o.
Arguments Suspended {Sg St A} w k.

Record Run (Sg : Sig) (St A : Type) : Type := MkRun {
  run_state : St;                (* the fields when the run stops *)
  run_calls : list (call Sg);    (* the collaborator calls made, in order *)
  run_writes : nat;              (* how many field assignments were executed *)
  run_status : Status Sg St A
}.
Arguments MkRun {Sg St A}.
Arguments run_state {Sg St A} r.
Arguments run_calls {Sg St A} r.
Arguments run_writes {Sg St A} r.
Arguments run_status {Sg St A} r.

(** The answers of the collaborators: the [n]-th synchronous call of a run,
    when it is [c], returns [env n c]. *)
Definition Oracle (Sg : Sig) : Type := nat -> forall c : call Sg, call_res Sg c.

Fixpoint run_from {Sg St A} (env : Oracle Sg) (calls : list (call Sg)) (writes : nat)
    (s : St) (p : Prog Sg St A) : Run Sg St A :=
  match p with
  | Ret a => MkRun s calls writes (Done (Fulfilled a))
  | Throw e => MkRun s calls writes (Done (Rejected e))
  | Get k => run_from env calls writes s (k s)
  | Modify f k => run_from env calls (S writes) (f s) k
  | Call c k => run_from env (calls ++ [c]) writes s (k (env (length calls) c))
  | Await w k => MkRun s calls writes (Suspended w k)
  end.

Definition run_sync {Sg St A} (env : Oracle Sg) (s : St) (p : Prog Sg St A) : Run Sg St A :=
  run_from env [] 0 s p.

Definition run_wait {Sg St A} (r : Run Sg St A) : option (wait Sg) :=
  match run_status r with
  | Suspended w _ => Some w
  | Done _ => None
  end.

Definition run_outcome {Sg St A} (r : Run Sg St A) : option (Outcome A) :=
  match run_status r with
  | Done o => Some o
  | Suspended _ _ => None
  end.

(** ** Static bounds on what a program does to the fields *)

(** [writes_le n p]: no path through [p], across all its suspensions,
    executes more than [n] assignments. *)
Fixpoint writes_le {Sg St A} (n : nat) (p : Prog Sg St A) : Prop :=
  match p with
  | Ret _ | Throw _ => True
  | Get k => forall s, writes_le n (k s)
  | Modify _ k => match n with
                  | O => False
                  | S m => writes_le m k
                  end
  | Call c k => forall r, writes_le n (k r)
  | Await w k => forall o, writes_le n (k o)
  end.

(** [turn_ok G s0 s p]: a turn that began in state [s0], is now in state [s]
    and goes on as [p] ends in a state [G]-related to [s0]; and every later
    turn of [p], from whatever state it resumes in, does the same. *)
Fixpoint turn_ok {Sg St A} (G : St -> St -> Prop) (s0 s : St) (p : Prog Sg St A) : Prop :=
  match p with
  | Ret _ | Throw _ => G s0 s
  | Get k => turn_ok G s0 s (k s)
  | Modify f k => turn_ok G s0 (f s) k
  | Call c k => forall r, turn_ok G s0 s (k r)
  | Await w k => G s0 s /\ forall o s', turn_ok G s' s' (k o)
  end.

Definition guarantees {Sg St A} (G : St -> St -> Prop) (p : Prog Sg St A) : Prop :=
  forall s, turn_ok G s s p.

(** ** The event loop: suspended continuations and their interleavings *)

Record Thread (Sg : Sig) (St : Type) : Type := MkThread {
  thread_res : Type;
  thread_prog : Prog Sg St thread_res
}.
Arguments MkThread {Sg St} thread_res thread_prog.
Arguments thread_res {Sg St} t.
Arguments thread_prog {Sg St} t.

Record Config (Sg : Sig) (St : Type) : Type := MkConfig {
  heap : St;
  pool : list (Thread Sg St)
}.
Arguments MkConfig {Sg St} heap pool.
Arguments heap {Sg St} c.
Arguments pool {Sg St} c.

(** What a run leaves in the pool: its continuation, when it suspended. *)
Definition park {Sg St A} (r : Run Sg St A) : list (Thread Sg St) :=
  match run_status r with
  | Suspended w k => [MkThread A (Await w k)]
  | Done _ => []
  end.

(** Starting a method call: run it to its first suspension. *)
Definition start {Sg St A} (env : Oracle Sg) (c : Config Sg St) (p : Prog Sg St A)
    : Config Sg St :=
  let r := run_sync env (heap c) p in
  MkConfig (run_state r) (pool c ++ park r).

(** Settling the wait of the [i]-th suspended continuation with [o]. *)
Definition resume {Sg St A} (env : Oracle Sg) (c : Config Sg St) (i : nat)
    (w : wait Sg) (k : Outcome (wait_res Sg w) -> Prog Sg St A)
    (o : Outcome (wait_res Sg w)) : Config Sg St :=
  let r := run_sync env (heap c) (k o) in
  MkConfig (run_state r) (delete i (pool c) ++ park r).

(** One turn of the event loop.  [entry] are the programs callers may start,
    [other] what code outside the class may do to the state between turns.
    The label is the number of field assignments of the turn. *)
Inductive step {Sg St} (entry : Thread Sg St -> Prop) (other : St -> St -> Prop)
    : Config Sg St -> nat -> Config Sg St -> Prop :=
| step_start c env t :
    entry t ->
    step entry other c (run_writes (run_sync env (heap c) (thread_prog t)))
         (start env c (thread_prog t))
| step_resume c env i A w (k : Outcome (wait_res Sg w) -> Prog Sg St A) o :
    pool c !! i = Some (MkThread A (Await w k)) ->
    step entry other c (run_writes (run_sync env (heap c) (k o)))
         (resume env c i w k o)
| step_other c s' :
    other (heap c) s' ->
    step entry other c 0 (MkConfig s' (pool c)).

(** A finite execution: the turns taken from a configuration, each with its
    label and the configuration it leads to. *)
Inductive execution {Sg St} (entry : Thread Sg St -> Prop) (other : St -> St -> Prop)
    : Config Sg St -> list (nat * Config Sg St) -> Prop :=
| execution_nil c : execution entry other c []
| execution_cons c n c' rest :
    step entry other c n c' ->
    execution entry other c' rest ->
    execution entry other c ((n, c') :: rest).

(** ** CommandService *)

(** A command handler is a function value; it is identified by a handle. *)
Inductive ICommandHandler : Type :=
| Handler (h : nat).

Record ICommand : Type := MkCommand {
  command_id : string;
  handler : ICommandHandler
}.

Record ICommandEvent : Type := MkCommandEvent {
  commandId : string
}.

(** [ProgressLocation]: the member the dispatcher uses. *)
Inductive ProgressLocation : Type :=
| Window.

Record IProgressOptions : Type := MkProgressOptions {
  location : ProgressLocation;
  title : string
}.

(** The field of the class, and the static [CommandsRegistry] it consults. *)
Record CommandService : Type := MkCommandService {
  _extensionHostIsReady : bool;
  CommandsRegistry : gmap string ICommand
}.

Definition set_extensionHostIsReady (value : bool) (s : CommandService) : CommandService :=
  MkCommandService value (CommandsRegistry s).

(** Synchronous calls of the dispatcher into its services. *)
Inductive CommandCall : Type :=
| logService_trace (message id : string)
| extensionService_activateByEvent (activationEvent : string)
| extensionService_whenInstalledExtensionsRegistered
| progressService_withProgress (options : IProgressOptions) (task : Thenable)
| onWillExecuteCommand_fire (e : ICommandEvent)
| instantiationService_invokeFunction (fn : ICommandHandler) (args : list JsVal).

(** What each call returns.  [invokeFunction] runs the handler, which may
    throw: the source guards it with try/catch.  The services are taken to
    return: logging, starting an activation, opening the progress indicator,
    and firing the event, whose observers "may inspect but not veto". *)
Definition CommandCall_res (c : CommandCall) : Type :=
  match c with
  | logService_trace _ _ => unit
  | extensionService_activateByEvent _ => Thenable
  | extensionService_whenInstalledExtensionsRegistered => Thenable
  | progressService_withProgress _ _ => Thenable
  | onWillExecuteCommand_fire _ => unit
  | instantiationService_invokeFunction _ _ => Outcome JsVal
  end.

(** Suspension points: [.then] on a [Thenable<any>] and on the
    [Promise<boolean>] of the start-up signal. *)
Inductive CommandWait : Type :=
| then_any (t : Thenable)
| then_boolean (t : Thenable).

Definition CommandWait_res (w : CommandWait) : Type :=
  match w with
  | then_any _ => JsVal
  | then_boolean _ => bool
  end.

Definition CommandSig : Sig :=
  MkSig CommandCall CommandCall_res CommandWait CommandWait_res.

Definition CommandProg : Type -> Type := Prog CommandSig CommandService.

(** [localize('activating', "Activating extensions for command '{0}'...", id)] *)
Definition localize_activating (id : string) : string :=
  "Activating extensions for command '" +:+ id +:+ "'...".

(** [Promise.resolve(result)]: a thenable result is adopted. *)
Definition Promise_resolve (result : JsVal) : CommandProg JsVal :=
  match result with
  | JsThenable t => await (Sg := CommandSig) (then_any t)
  | v => Ret v
  end.

(** Lines 61-73. *)
Definition _tryExecuteCommand (id : string) (args : list JsVal) : CommandProg JsVal :=
  Get (fun this =>
    match CommandsRegistry this !! id with
    | None => Throw (Error ("command '" +:+ id +:+ "' not found"))
    | Some command =>
        result ← try_catch
          (Call (Sg := CommandSig) (onWillExecuteCommand_fire (MkCommandEvent id)) (fun _ =>
           Call (Sg := CommandSig) (instantiationService_invokeFunction (handler command) args)
             of_outcome))
          (fun err => Throw err);
        Promise_resolve result
    end).

(** Line 42: [!!CommandsRegistry.getCommand(id)]. *)
Definition commandIsRegistered (this : CommandService) (id : string) : bool :=
  bool_decide (is_Some (CommandsRegistry this !! id)).

(** Line 57: the callback of [waitFor.then]; a rejection passes through. *)
Definition then_tryExecuteCommand (id : string) (args : list JsVal) (settled : Outcome JsVal)
    : CommandProg JsVal :=
  match settled with
  | Fulfilled _ => _tryExecuteCommand id args
  | Rejected e => Throw e
  end.

(** Lines 34-59. *)
Definition executeCommand (id : string) (args : list JsVal) : CommandProg JsVal :=
  Call (Sg := CommandSig) (logService_trace "CommandService#executeCommand" id) (fun _ =>
  Call (Sg := CommandSig) (extensionService_activateByEvent ("onCommand:" +:+ id)) (fun activation =>
  Get (fun this =>
    if negb (_extensionHostIsReady this) && commandIsRegistered this id then
      _tryExecuteCommand id args
    else
      waitFor ← (if negb (commandIsRegistered this id) then
                   Call (Sg := CommandSig) (extensionService_activateByEvent "*") (fun all =>
                   Ret (Promise_all [activation; all]))
                 else Ret activation);
      Call (Sg := CommandSig)
        (progressService_withProgress
           (MkProgressOptions Window (localize_activating id)) waitFor) (fun _ =>
      Await (Sg := CommandSig) (then_any waitFor) (then_tryExecuteCommand id args))))).

(** Line 31: the callback [value => this._extensionHostIsReady = value]. *)
Definition then_setReady (settled : Outcome bool) : CommandProg unit :=
  match settled with
  | Fulfilled value => modify (set_extensionHostIsReady value)
  | Rejected e => Throw e
  end.

(** The constructor body, line 31; the object it runs on has
    [_extensionHostIsReady = false] (line 19). *)
Definition CommandService_constructor : CommandProg unit :=
  Call (Sg := CommandSig) extensionService_whenInstalledExtensionsRegistered (fun ready =>
  Await (Sg := CommandSig) (then_boolean ready) then_setReady).

Definition CommandService_fresh (registry : gmap string ICommand) : CommandService :=
  MkCommandService false registry.

(** [new CommandService(...)]: the configuration once the constructor has
    returned. *)
Definition CommandService_new (env : Oracle CommandSig) (registry : gmap string ICommand)
    : Config CommandSig CommandService :=
  start env (MkConfig (CommandService_fresh registry) []) CommandService_constructor.

(** The public operation of the dispatcher. *)
Inductive CommandService_entry : Thread CommandSig CommandService -> Prop :=
| entry_executeCommand id args :
    CommandService_entry (MkThread JsVal (executeCommand id args)).

(** Other code registers and unregisters commands; the private field is out
    of its reach. *)
Definition CommandsRegistry_changes (s s' : CommandService) : Prop :=
  _extensionHostIsReady s' = _extensionHostIsReady s.

(** The successive values of a flag: how often it goes up, and down. *)
Fixpoint rises (bs : list bool) : nat :=
  match bs with
  | b1 :: (b2 :: _) as rest => (if negb b1 && b2 then 1 else 0) + rises rest
  | _ => 0
  end.

Fixpoint falls (bs : list bool) : nat :=
  match bs with
  | b1 :: (b2 :: _) as rest => (if b1 && negb b2 then 1 else 0) + falls rest
  | _ => 0
  end.

(** The values of the flag along an execution. *)
Definition ready_history (c : Config CommandSig CommandService)
    (run : list (nat * Config CommandSig CommandService)) : list bool :=
  _extensionHostIsReady (heap c) :: ((fun x => _extensionHostIsReady (heap (snd x))) <$> run).

(** The calls every dispatch starts with (lines 35 and 41). *)
Definition dispatch_calls (id : string) : list CommandCall :=
  [logService_trace "CommandService#executeCommand" id;
   extensionService_activateByEvent ("onCommand:" +:+ id)].

(** Services that answer at once: each thenable they hand out is numbered by
    the call that made it, and handlers return [undefined]. *)
Definition quiet_services : Oracle CommandSig := fun n c =>
  match c return CommandCall_res c with
  | logService_trace _ _ => tt
  | extensionService_activateByEvent _ => Pending n
  | extensionService_whenInstalledExtensionsRegistered => Pending n
  | progressService_withProgress _ task => task
  | onWillExecuteCommand_fire _ => tt
  | instantiationService_invokeFunction _ _ => Fulfilled JsUndefined
  end.

Definition one_command : gmap string ICommand :=
  {[ "a" := MkCommand "a" (Handler 1) ]}.

(** A short life of the dispatcher: the start-up signal arrives with [true],
    then command "a" is executed. *)
Definition sample_run : list (nat * Config CommandSig CommandService) :=
  let c0 := CommandService_new quiet_services one_command in
  let c1 := resume quiet_services c0 0 (then_boolean (Pending 0)) then_setReady
              (Fulfilled true) in
  let c2 := start quiet_services c1 (executeCommand "a" []) in
  [(1, c1); (0, c2)].

(** The assignments still owed by the suspended continuations, one budget
    per continuation. *)
Definition budgeted (bs : list nat) (c : Config CommandSig CommandService) : Prop :=
  Forall2 (fun b t => writes_le b (thread_prog t)) bs (pool c).

(** The invariant behind the latch: at most one assignment in all, and the
    flag is still [false] while none has been made. *)
Definition latch_inv (spent : nat) (c : Config CommandSig CommandService) : Prop :=
  exists bs, budgeted bs c /\ sum_list bs + spent <= 1 /\
             (spent = 0 -> _extensionHostIsReady (heap c) = false).

(** ** ExtHostLanguageModelTools *)

Inductive CancellationToken : Type :=
| CancellationToken_None
| Token (n : nat).

(** Wire and API representations, kept apart as the source's types do. *)
Inductive IToolResult : Type := ToolResultDto (v : JsVal).
Inductive LanguageModelToolResult : Type := ToolResult (v : JsVal).
Inductive IChatMessage : Type := ChatMessageDto (v : JsVal).
Inductive LanguageModelChatMessage : Type := ChatMessage (v : JsVal).
Inductive IExtensionDescription : Type := ExtensionDescription (identifier : string).

(** A [vscode.LanguageModelTool]: an object with an [invoke] method. *)
Inductive LanguageModelTool : Type := Tool (h : nat).

(** The descriptor of a tool; the class reads [id] only. *)
Record IToolData : Type := MkToolData {
  id : string;
  metadata : JsVal
}.

Record IToolDelta : Type := MkToolDelta {
  added : option IToolData;
  removed : option string
}.

(** The values of [_tokenCountFuncs]: a function an extension passed in
    [options.tokenOptions.countTokens], or the arrow function that
    [$invokeTool] builds (lines 89-90), which closes over [dto.callId]. *)
Inductive CountTokensFn : Type :=
| countTokens_of (h : nat)
| countTokens_via_proxy (callId : string).

Record TokenOptions : Type := MkTokenOptions {
  tokenOptions_tokenBudget : Z;
  countTokens : CountTokensFn
}.

Record LanguageModelToolInvokationOptions : Type := MkOptions {
  options_parameters : JsVal;
  tokenOptions : option TokenOptions
}.

Record IToolInvokationDto : Type := MkDto {
  toolId : string;
  callId : string;
  parameters : JsVal;
  tokenBudget : option Z
}.

Record RegisteredTool : Type := MkRegisteredTool {
  extension : IExtensionDescription;
  tool : LanguageModelTool
}.

(** The three maps of the class (lines 19-24).  [uuids_issued] is not a field:
    it is the state of the imported [generateUuid]. *)
Record ExtHostLanguageModelTools : Type := MkExtHost {
  _registeredTools : gmap string RegisteredTool;
  _tokenCountFuncs : gmap string CountTokensFn;
  _allTools : gmap string IToolData;
  uuids_issued : nat
}.

Definition set_registeredTools (f : gmap string RegisteredTool -> gmap string RegisteredTool)
    (s : ExtHostLanguageModelTools) : ExtHostLanguageModelTools :=
  MkExtHost (f (_registeredTools s)) (_tokenCountFuncs s) (_allTools s) (uuids_issued s).

Definition set_tokenCountFuncs (f : gmap string CountTokensFn -> gmap string CountTokensFn)
    (s : ExtHostLanguageModelTools) : ExtHostLanguageModelTools :=
  MkExtHost (_registeredTools s) (f (_tokenCountFuncs s)) (_allTools s) (uuids_issued s).

Definition set_allTools (f : gmap string IToolData -> gmap string IToolData)
    (s : ExtHostLanguageModelTools) : ExtHostLanguageModelTools :=
  MkExtHost (_registeredTools s) (_tokenCountFuncs s) (f (_allTools s)) (uuids_issued s).

Definition next_uuid (s : ExtHostLanguageModelTools) : ExtHostLanguageModelTools :=
  MkExtHost (_registeredTools s) (_tokenCountFuncs s) (_allTools s) (S (uuids_issued s)).

(** What the file imports from modules outside src/, taken as parameters:
    the marshalling and type converters, and the sequence of ids that
    [generateUuid] hands out. *)
Class Imports : Type := MkImports {
  revive : IToolData -> IToolData;
  LanguageModelToolResult_to : IToolResult -> LanguageModelToolResult;
  LanguageModelToolResult_from : LanguageModelToolResult -> IToolResult;
  LanguageModelChatMessage_to : IChatMessage -> LanguageModelChatMessage;
  LanguageModelChatMessage_from : LanguageModelChatMessage -> IChatMessage;
  uuid : nat -> string
}.

(** Fire-and-forget sends on the proxy: the returned promise is dropped. *)
Inductive ToolCall : Type :=
| proxy_registerTool (name : string)
| proxy_unregisterTool (name : string).

Definition ToolCall_res (c : ToolCall) : Type := unit.

Inductive ToolWait : Type :=
| proxy_getTools
| proxy_invokeTool (dto : IToolInvokationDto) (token : CancellationToken)
| proxy_countTokensForInvokation (callId : string) (input : string + IChatMessage)
    (token : CancellationToken)
| countTokens_apply (h : nat) (text : string + LanguageModelChatMessage)
    (token : option CancellationToken)
| tool_invoke (t : LanguageModelTool) (options : LanguageModelToolInvokationOptions)
    (token : CancellationToken).

Definition ToolWait_res (w : ToolWait) : Type :=
  match w with
  | proxy_getTools => list IToolData
  | proxy_invokeTool _ _ => IToolResult
  | proxy_countTokensForInvokation _ _ _ => Z
  | countTokens_apply _ _ _ => Z
  | tool_invoke _ _ _ => LanguageModelToolResult
  end.

Definition ToolSig : Sig := MkSig ToolCall ToolCall_res ToolWait ToolWait_res.

Definition ToolProg : Type -> Type := Prog ToolSig ExtHostLanguageModelTools.

(** JavaScript truthiness of a string: the empty string is falsy. *)
Definition truthy (s : string) : bool :=
  match s with
  | EmptyString => false
  | String _ _ => true
  end.

Section Methods.
Context `{Imports}.

(** Modelled from the spec: [generateUuid] of vs/base/common/uuid, which is
    not under src/.  The spec has it "generate a fresh unique call id"; here
    the generator hands out [uuid 0], [uuid 1], ... in turn, and its freshness
    is the injectivity of [uuid], assumed where a property needs it. *)
Definition generateUuid : ToolProg string :=
  Get (fun this => Modify next_uuid (Ret (uuid (uuids_issued this)))).

(** What calling a counting function starts.  For the arrow function of
    lines 89-90 it is the round trip to the peer, where [token] defaults to
    [CancellationToken.None]. *)
Definition countTokens_call (fn : CountTokensFn) (value : string + LanguageModelChatMessage)
    (token : option CancellationToken) : ToolWait :=
  match fn with
  | countTokens_of h => countTokens_apply h value token
  | countTokens_via_proxy callId =>
      proxy_countTokensForInvokation callId
        (match value with
         | inl text => inl text
         | inr message => inr (LanguageModelChatMessage_from message)
         end)
        (default CancellationToken_None token)
  end.

(** [await fn(value, token)]. *)
Definition apply_countTokens (fn : CountTokensFn) (value : string + LanguageModelChatMessage)
    (token : option CancellationToken) : ToolProg Z :=
  match fn with
  | countTokens_of h =>
      await (Sg := ToolSig) (countTokens_call (countTokens_of h) value token)
  | countTokens_via_proxy callId =>
      await (Sg := ToolSig) (countTokens_call (countTokens_via_proxy callId) value token)
  end.

(** Line 42: [typeof input === 'string' ? input : LanguageModelChatMessage.to(input)]. *)
Definition input_to (input : string + IChatMessage) : string + LanguageModelChatMessage :=
  match input with
  | inl text => inl text
  | inr message => inr (LanguageModelChatMessage_to message)
  end.

(** Lines 36-43. *)
Definition rpc_countTokensForInvokation (callId : string) (input : string + IChatMessage)
    (token : CancellationToken) : ToolProg Z :=
  Get (fun this =>
    match _tokenCountFuncs this !! callId with
    | None => Throw (Error ("Tool invokation call " +:+ callId +:+ " not found"))
    | Some fn =>
        apply_countTokens fn (input_to input) (Some token)
    end).

(** Lines 45-62. *)
Definition invokeTool (toolId : string) (options : LanguageModelToolInvokationOptions)
    (token : CancellationToken) : ToolProg LanguageModelToolResult :=
  callId ← generateUuid;
  match tokenOptions options with
  | Some tokenOptions => modify (set_tokenCountFuncs (insert callId (countTokens tokenOptions)))
  | None => Ret tt
  end;;
  try_finally
    (result ← await (Sg := ToolSig)
       (proxy_invokeTool
          (MkDto toolId callId (options_parameters options)
             (tokenOptions_tokenBudget <$> tokenOptions options))
          token);
     Ret (LanguageModelToolResult_to result))
    (modify (set_tokenCountFuncs (delete callId))).

(** Lines 64-72.  [delta.added] is an object, truthy when present;
    [delta.removed] is a string, truthy when present and not empty. *)
Definition rpc_acceptToolDelta (delta : IToolDelta) : ToolProg unit :=
  match added delta with
  | Some t => modify (set_allTools (insert (id t) t))
  | None => Ret tt
  end;;
  match removed delta with
  | Some x => if truthy x then modify (set_allTools (delete x)) else Ret tt
  | None => Ret tt
  end.

(** Lines 79-96. *)
Definition rpc_invokeTool (dto : IToolInvokationDto) (token : CancellationToken)
    : ToolProg IToolResult :=
  Get (fun this =>
    match _registeredTools this !! toolId dto with
    | None => Throw (Error ("Unknown tool " +:+ toolId dto))
    | Some item =>
        let options :=
          MkOptions (parameters dto)
            (match tokenBudget dto with
             | Some budget =>
                 Some (MkTokenOptions budget
                         (default (countTokens_via_proxy (callId dto))
                                  (_tokenCountFuncs this !! callId dto)))
             | None => None
             end) in
        extensionResult ← await (Sg := ToolSig) (tool_invoke (tool item) options token);
        Ret (LanguageModelToolResult_from extensionResult)
    end).

(** Lines 98-106: the registration, and the disposable it returns. *)
Definition registerTool (extension : IExtensionDescription) (name : string)
    (tool : LanguageModelTool) : ToolProg unit :=
  modify (set_registeredTools (insert name (MkRegisteredTool extension tool)));;
  Call (Sg := ToolSig) (proxy_registerTool name) (fun _ => Ret tt).

Definition registerTool_dispose (name : string) : ToolProg unit :=
  modify (set_registeredTools (delete name));;
  Call (Sg := ToolSig) (proxy_unregisterTool name) (fun _ => Ret tt).

(** Lines 26-34: the snapshot fetched by the constructor. *)
Definition ExtHostLanguageModelTools_constructor : ToolProg unit :=
  Await (Sg := ToolSig) proxy_getTools (fun settled =>
    match settled with
    | Fulfilled tools =>
        modify (set_allTools (fun all =>
          foldl (fun m tool => <[id tool := revive tool]> m) all tools))
    | Rejected e => Throw e
    end).

Definition ExtHostLanguageModelTools_fresh (issued : nat) : ExtHostLanguageModelTools :=
  MkExtHost ∅ ∅ ∅ issued.

Definition ExtHostLanguageModelTools_new (env : Oracle ToolSig) (issued : nat)
    : Config ToolSig ExtHostLanguageModelTools :=
  start env (MkConfig (ExtHostLanguageModelTools_fresh issued) [])
    ExtHostLanguageModelTools_constructor.

(** What callers and the peer may start on the object. *)
Inductive ExtHostLanguageModelTools_entry
    : Thread ToolSig ExtHostLanguageModelTools -> Prop :=
| entry_countTokensForInvokation callId input token :
    ExtHostLanguageModelTools_entry
      (MkThread Z (rpc_countTokensForInvokation callId input token))
| entry_invokeTool toolId options token :
    ExtHostLanguageModelTools_entry
      (MkThread LanguageModelToolResult (invokeTool toolId options token))
| entry_acceptToolDelta delta :
    ExtHostLanguageModelTools_entry (MkThread unit (rpc_acceptToolDelta delta))
| entry_rpc_invokeTool dto token :
    ExtHostLanguageModelTools_entry (MkThread IToolResult (rpc_invokeTool dto token))
| entry_registerTool extension name tool :
    ExtHostLanguageModelTools_entry (MkThread unit (registerTool extension name tool))
| entry_registerTool_dispose name :
    ExtHostLanguageModelTools_entry (MkThread unit (registerTool_dispose name)).

End Methods.

(** Other code of the process draws uuids too; the maps are private. *)
Definition uuids_drawn (s s' : ExtHostLanguageModelTools) : Prop :=
  _registeredTools s' = _registeredTools s /\
  _tokenCountFuncs s' = _tokenCountFuncs s /\
  _allTools s' = _allTools s /\
  uuids_issued s <= uuids_issued s'.

(** A concrete instance of the imports: identity conversions, and decimal
    numerals for uuids. *)
Definition decimal_imports : Imports :=
  MkImports
    (fun t => t)
    (fun r => match r with ToolResultDto v => ToolResult v end)
    (fun r => match r with ToolResult v => ToolResultDto v end)
    (fun m => match m with ChatMessageDto v => ChatMessage v end)
    (fun m => match m with ChatMessage v => ChatMessageDto v end)
    (fun n => pretty n).

(** The rejection of [$countTokensForInvokation], line 39. *)
Definition not_found (callId : string) : JsError :=
  Error ("Tool invokation call " +:+ callId +:+ " not found").

(** The request [invokeTool] sends for the call id it drew, lines 52-57. *)
Definition request (toolId callId : string) (options : LanguageModelToolInvokationOptions)
    : IToolInvokationDto :=
  MkDto toolId callId (options_parameters options)
    (tokenOptions_tokenBudget <$> tokenOptions options).

(** What one turn of any method may do to the uuid generator and to
    [_tokenCountFuncs]: draw uuids, and leave each entry as it was, or empty,
    unless its key is a uuid drawn in this very turn. *)
Definition turn_guarantee `{Imports} (s s' : ExtHostLanguageModelTools) : Prop :=
  uuids_issued s <= uuids_issued s' /\
  forall key,
    _tokenCountFuncs s' !! key = _tokenCountFuncs s !! key \/
    _tokenCountFuncs s' !! key = None \/
    exists n, key = uuid n /\ uuids_issued s <= n < uuids_issued s'.





(** One turn of the extension host's event loop, whatever it assigns. *)
Definition tool_step `{Imports}
    (c c' : Config ToolSig ExtHostLanguageModelTools) : Prop :=
  exists n, step ExtHostLanguageModelTools_entry uuids_drawn c n c'.

(** The proxy sends return nothing. *)
Definition silent_proxy : Oracle ToolSig := fun _ _ => tt.

(** Sample inputs: a caller that supplies a counting function, and one that
    does not. *)
Definition metered_options : LanguageModelToolInvokationOptions :=
  MkOptions (JsObject [("q", JsString "x")]) (Some (MkTokenOptions 100 (countTokens_of 1))).

Definition plain_options : LanguageModelToolInvokationOptions :=
  MkOptions JsUndefined None.

(** An extension host with tool "search" registered, in the middle of an
    invocation made from this same host: call id "7" has a counting function
    in [_tokenCountFuncs]. *)
Definition busy_host : ExtHostLanguageModelTools :=
  MkExtHost
    {[ "search" := MkRegisteredTool (ExtensionDescription "ext") (Tool 1) ]}
    {[ "7" := countTokens_of 3 ]}
    ∅ 8.

Definition search_tool : IToolData := MkToolData "search" (JsString "Search the workspace").

Definition unnamed_tool : IToolData := MkToolData "" JsUndefined.

(** ** Further vocabulary for executions *)

(** The configuration an execution ends in. *)
Definition last_config {Sg St} (c : Config Sg St) (run : list (nat * Config Sg St))
    : Config Sg St :=
  foldl (fun _ turn => snd turn) c run.

(** No suspended continuation has an assignment left to make. *)
Definition quiescent (c : Config CommandSig CommandService) : Prop :=
  Forall (fun t => writes_le 0 (thread_prog t)) (pool c).

(** What the flag holds once the start-up signal has settled with [o]. *)
Definition signalled (o : Outcome bool) : bool :=
  match o with
  | Fulfilled value => value
  | Rejected _ => false
  end.

(** The registry of [one_command] once an activated extension has
    registered "b". *)
Definition two_commands : gmap string ICommand :=
  <[ "b" := MkCommand "b" (Handler 2) ]> one_command.

(** A start-up in which the signal stays pending: "b" is requested before it
    is registered and waits for activation, an extension then registers
    "b", and "a" is requested and runs at once. *)
Definition requested_b : Config CommandSig CommandService :=
  start quiet_services (CommandService_new quiet_services one_command) (executeCommand "b" []).

Definition registered_b : Config CommandSig CommandService :=
  MkConfig (MkCommandService false two_commands) (pool requested_b).

Definition requested_a : Config CommandSig CommandService :=
  start quiet_services registered_b (executeCommand "a" []).

Definition early_requests : list (nat * Config CommandSig CommandService) :=
  [(0, requested_b); (0, registered_b); (0, requested_a)].

(** The descriptor a snapshot gives for [key]: the last one listed under
    that id. *)
Definition listed (tools : list IToolData) (key : string) : option IToolData :=
  last (filter (fun t => id t = key) tools).

(** What a delta does to the mirror table (lines 65-71). *)
Definition delta_effect (delta : IToolDelta) (all : gmap string IToolData)
    : gmap string IToolData :=
  let with_added := match added delta with
                    | Some t => <[id t := t]> all
                    | None => all
                    end in
  match removed delta with
  | Some x => if truthy x then delete x with_added else with_added
  | None => with_added
  end.

(** A turn that registers no counting function: every entry of
    [_tokenCountFuncs] stays as it was or goes. *)
Definition shrinks (s s' : ExtHostLanguageModelTools) : Prop :=
  forall key,
    _tokenCountFuncs s' !! key = _tokenCountFuncs s !! key \/
    _tokenCountFuncs s' !! key = None.

(** A suspended continuation that, whenever and however it is resumed,
    leaves no entry for [key]. *)
Definition erases (key : string) (t : Thread ToolSig ExtHostLanguageModelTools) : Prop :=
  match thread_prog t with
  | Await w k =>
      forall o env s, _tokenCountFuncs (run_state (run_sync env s (k o))) !! key = None
  | _ => False
  end.

(** Every registered counting function has a suspended continuation that
    will erase it. *)
Definition in_flight (c : Config ToolSig ExtHostLanguageModelTools) : Prop :=
  forall key,
    is_Some (_tokenCountFuncs (heap c) !! key) ->
    exists t, t ∈ pool c /\ erases key t.

(** No suspended continuation registers a counting function. *)
Definition only_shrinks (c : Config ToolSig ExtHostLanguageModelTools) : Prop :=
  Forall (fun t => guarantees shrinks (thread_prog t)) (pool c).

(** A mirror table that already lists "search". *)
Definition mirror_host : ExtHostLanguageModelTools :=
  MkExtHost ∅ ∅ {[ "search" := search_tool ]} 0.

(** A delta that adds "grep" and removes "old". *)
Definition grep_delta : IToolDelta :=
  MkToolDelta (Some (MkToolData "grep" JsUndefined)) (Some "old").

(** * Properties *)

(** ** Runs and the static bounds *)

Section RunFacts.
Context {Sg : Sig} {St : Type}.
Implicit Types (env : Oracle Sg) (s : St) (calls : list (call Sg)).

Lemma writes_le_of_outcome {A} (o : Outcome A) n :
  writes_le (Sg := Sg) (St := St) n (of_outcome o).
Proof. by destruct o. Qed.

(** A run spends no more than the bound, leaves the rest of it to its
    continuation, and changes the state only by assignments. *)
Lemma run_from_writes {A} env (p : Prog Sg St A) : forall n calls spent s,
  writes_le n p ->
  let r := run_from env calls spent s p in
  spent <= run_writes r <= spent + n /\
  (run_writes r = spent -> run_state r = s) /\
  match run_status r with
  | Suspended _ k => forall o, writes_le (spent + n - run_writes r) (k o)
  | Done _ => True
  end.
Proof.
  induction p as [a|e|k IH|f k IH|c k IH|w k IH]; simpl; intros n calls spent s Hp.
  - repeat split; lia.
  - repeat split; lia.
  - apply IH, Hp.
  - destruct n as [|n]; [done|].
    destruct (IH n calls (S spent) (f s) Hp) as (Hle & _ & Hk).
    split; [lia|]. split; [lia|].
    destruct (run_status _); [done|].
    intros o. replace (spent + S n - _) with (S spent + n - run_writes
      (run_from env calls (S spent) (f s) k)) by lia. apply Hk.
  - apply IH, Hp.
  - repeat split; try lia.
    intros o. replace (spent + n - spent) with n by lia. apply Hp.
Qed.

Lemma run_sync_writes {A} env s (p : Prog Sg St A) n :
  writes_le n p ->
  run_writes (run_sync env s p) <= n /\
  (run_writes (run_sync env s p) = 0 -> run_state (run_sync env s p) = s) /\
  Forall (fun t => writes_le (n - run_writes (run_sync env s p)) (thread_prog t))
         (park (run_sync env s p)).
Proof.
  intros Hp. destruct (run_from_writes env p n [] 0 s Hp) as (Hle & Hs & Hk).
  fold (run_sync env s p) in *. split; [lia|]. split; [done|].
  unfold park. destruct (run_status _); [constructor|].
  constructor; [|constructor]. simpl. intros o. apply Hk.
Qed.

(** A turn of a program that keeps a guarantee ends in a related state, and
    so will the turns of its continuation. *)
Lemma run_from_turn {A} (G : St -> St -> Prop) (env : Oracle Sg) (p : Prog Sg St A) :
  forall calls spent s0 s,
  turn_ok G s0 s p ->
  let r := run_from env calls spent s p in
  G s0 (run_state r) /\
  match run_status r with
  | Suspended _ k => forall o, guarantees G (k o)
  | Done _ => True
  end.
Proof.
  induction p as [a|e|k IH|f k IH|c k IH|w k IH]; simpl; intros calls spent s0 s Hp;
    try done; by apply IH.
Qed.

Lemma run_sync_turn {A} (G : St -> St -> Prop) `{!Reflexive G} (env : Oracle Sg) s
    (p : Prog Sg St A) :
  guarantees G p ->
  G s (run_state (run_sync env s p)) /\
  Forall (fun t => guarantees G (thread_prog t)) (park (run_sync env s p)).
Proof.
  intros Hp. destruct (run_from_turn G env p [] 0 s s (Hp s)) as [HG Hk].
  fold (run_sync env s p) in *. split; [done|].
  unfold park. destruct (run_status _) as [o|w k]; [constructor|].
  constructor; [|constructor]. simpl. intros s'. split; [reflexivity|].
  intros o s''. apply Hk.
Qed.

End RunFacts.

(** ** CommandService: dispatch *)

Section CommandFacts.
Implicit Types (env : Oracle CommandSig) (this : CommandService) (command : ICommand).

Lemma tryExecuteCommand_absent env this id args :
  CommandsRegistry this !! id = None ->
  run_sync env this (_tryExecuteCommand id args)
  = MkRun this [] 0 (Done (Rejected (Error ("command '" +:+ id +:+ "' not found")))).
Proof.
  intros Habs. unfold run_sync, _tryExecuteCommand. simpl. by rewrite Habs.
Qed.

(** With the command registered, [_tryExecuteCommand] fires the event and
    invokes the handler in the same synchronous run; what the handler does
    decides how the run ends. *)
Lemma tryExecuteCommand_present env this id args command calls spent :
  CommandsRegistry this !! id = Some command ->
  let r := run_from env calls spent this (_tryExecuteCommand id args) in
  run_calls r = calls ++ [onWillExecuteCommand_fire (MkCommandEvent id);
                          instantiationService_invokeFunction (handler command) args] /\
  run_state r = this /\ run_writes r = spent /\
  match env (S (length calls)) (instantiationService_invokeFunction (handler command) args) with
  | Fulfilled (JsThenable t) => run_wait r = Some (then_any t)
  | Fulfilled v => run_outcome r = Some (Fulfilled v)
  | Rejected e => run_outcome r = Some (Rejected e)
  end.
Proof.
  intros Hcmd. unfold _tryExecuteCommand. simpl. rewrite Hcmd. simpl.
  rewrite length_app, Nat.add_1_r. simpl.
  destruct (env (S (length calls)) _) as [[]|e]; simpl; rewrite <- app_assoc; done.
Qed.

(** The two branches of [executeCommand], lines 44-58. *)
Lemma executeCommand_dispatch env this id args :
  let activation := env 1 (extensionService_activateByEvent ("onCommand:" +:+ id)) in
  let waitFor := if commandIsRegistered this id then activation
                 else Promise_all [activation; env 2 (extensionService_activateByEvent "*")] in
  run_sync env this (executeCommand id args) =
  if negb (_extensionHostIsReady this) && commandIsRegistered this id then
    run_from env (dispatch_calls id) 0 this (_tryExecuteCommand id args)
  else
    MkRun (Sg := CommandSig) this
      (dispatch_calls id
       ++ (if commandIsRegistered this id then [] else [extensionService_activateByEvent "*"])
       ++ [progressService_withProgress (MkProgressOptions Window (localize_activating id))
             waitFor])
      0
      (Suspended (Sg := CommandSig) (then_any waitFor) (then_tryExecuteCommand id args)).
Proof.
  unfold run_sync, executeCommand. simpl.
  destruct (negb (_extensionHostIsReady this) && _); [reflexivity|].
  destruct (commandIsRegistered this id); reflexivity.
Qed.

Lemma commandIsRegistered_Some this id command :
  CommandsRegistry this !! id = Some command -> commandIsRegistered this id = true.
Proof. intros Hcmd. unfold commandIsRegistered. rewrite Hcmd. by apply bool_decide_eq_true_2. Qed.

Lemma commandIsRegistered_None this id :
  CommandsRegistry this !! id = None -> commandIsRegistered this id = false.
Proof.
  intros Hcmd. unfold commandIsRegistered. rewrite Hcmd.
  apply bool_decide_eq_false_2. by intros [? ?].
Qed.

(** The condition of line 44 fails when the host is ready or the command is
    not registered. *)
Lemma executeCommand_else this id :
  _extensionHostIsReady this = true \/ CommandsRegistry this !! id = None ->
  negb (_extensionHostIsReady this) && commandIsRegistered this id = false.
Proof.
  intros [->|Habs]; [done|].
  rewrite (commandIsRegistered_None _ _ Habs). by destruct (_extensionHostIsReady this).
Qed.

(** What the callback of [waitFor.then] does when the wait settles, in the
    state the object is in by then: fulfilled, it reads the registry again and
    runs the handler registered there, or rejects when there is none;
    rejected, it passes the rejection on and does nothing else. *)
Lemma then_tryExecuteCommand_runs env' this' id args :
  (forall v command,
     CommandsRegistry this' !! id = Some command ->
     run_calls (run_sync env' this' (then_tryExecuteCommand id args (Fulfilled v)))
     = [onWillExecuteCommand_fire (MkCommandEvent id);
        instantiationService_invokeFunction (handler command) args] /\
     match env' 1 (instantiationService_invokeFunction (handler command) args) with
     | Fulfilled (JsThenable t) =>
         run_wait (run_sync env' this' (then_tryExecuteCommand id args (Fulfilled v)))
         = Some (then_any t)
     | Fulfilled result =>
         run_outcome (run_sync env' this' (then_tryExecuteCommand id args (Fulfilled v)))
         = Some (Fulfilled result)
     | Rejected e =>
         run_outcome (run_sync env' this' (then_tryExecuteCommand id args (Fulfilled v)))
         = Some (Rejected e)
     end) /\
  (forall v,
     CommandsRegistry this' !! id = None ->
     run_sync env' this' (then_tryExecuteCommand id args (Fulfilled v))
     = MkRun this' [] 0 (Done (Rejected (Error ("command '" +:+ id +:+ "' not found"))))) /\
  (forall e,
     run_sync env' this' (then_tryExecuteCommand id args (Rejected e))
     = MkRun this' [] 0 (Done (Rejected e))).
Proof.
  split; [|split].
  - intros v command Hcmd. simpl.
    destruct (tryExecuteCommand_present env' this' id args command [] 0 Hcmd)
      as (Hcalls & _ & _ & Hend).
    split; [exact Hcalls|exact Hend].
  - intros v Habs. simpl. by apply tryExecuteCommand_absent.
  - reflexivity.
Qed.

(** C1, as amended.  For a command that is registered when [executeCommand]
    is called: while the extension host is not yet ready, the handler is
    invoked in the synchronous run of [executeCommand] itself, with no wait on
    the activation future, no broadcast activation and no progress indicator
    before it.  Once the host is ready, [executeCommand] suspends on the
    activation-by-event future alone, the handler not yet invoked; a handler
    is invoked only when that wait is fulfilled and the command is registered
    then (the handler registered then); when the command is gone by then the
    call is rejected as not found, and when the wait is rejected the call is
    rejected with the same error, in both cases with no call at all. *)
Theorem executeCommand_registered env this id args command :
  CommandsRegistry this !! id = Some command ->
  let r := run_sync env this (executeCommand id args) in
  let activation := env 1 (extensionService_activateByEvent ("onCommand:" +:+ id)) in
  let invoke := instantiationService_invokeFunction (handler command) args in
  if _extensionHostIsReady this then
    run_calls r = dispatch_calls id
      ++ [progressService_withProgress (MkProgressOptions Window (localize_activating id))
            activation] /\
    run_wait r = Some (then_any activation) /\
    exists k,
      run_status r = Suspended (Sg := CommandSig) (then_any activation) k /\
      (forall env' this' v command',
         CommandsRegistry this' !! id = Some command' ->
         run_calls (run_sync env' this' (k (Fulfilled v)))
         = [onWillExecuteCommand_fire (MkCommandEvent id);
            instantiationService_invokeFunction (handler command') args]) /\
      (forall env' this' v,
         CommandsRegistry this' !! id = None ->
         run_sync env' this' (k (Fulfilled v))
         = MkRun this' [] 0 (Done (Rejected (Error ("command '" +:+ id +:+ "' not found"))))) /\
      (forall env' this' e,
         run_sync env' this' (k (Rejected e)) = MkRun this' [] 0 (Done (Rejected e)))
  else
    run_calls r = dispatch_calls id ++ [onWillExecuteCommand_fire (MkCommandEvent id); invoke] /\
    match env 3 invoke with
    | Fulfilled (JsThenable t) => run_wait r = Some (then_any t)
    | Fulfilled v => run_outcome r = Some (Fulfilled v)
    | Rejected e => run_outcome r = Some (Rejected e)
    end.
Proof.
  intros Hcmd. cbv zeta. rewrite executeCommand_dispatch.
  rewrite (commandIsRegistered_Some _ _ _ Hcmd).
  destruct (_extensionHostIsReady this); simpl negb; cbv iota beta; simpl andb; cbv iota.
  - split; [reflexivity|]. split; [reflexivity|].
    eexists. split; [reflexivity|]. split; [|split].
    + intros env' this' v command' Hcmd'.
      by destruct (then_tryExecuteCommand_runs env' this' id args) as (Hrun & _ & _);
        destruct (Hrun v command' Hcmd').
    + intros env' this' v Habs.
      by destruct (then_tryExecuteCommand_runs env' this' id args) as (_ & Hrun & _);
        apply Hrun.
    + intros env' this' e.
      by destruct (then_tryExecuteCommand_runs env' this' id args) as (_ & _ & Hrun).
  - destruct (tryExecuteCommand_present env this id args command (dispatch_calls id) 0 Hcmd)
      as (Hcalls & _ & _ & Hend).
    split; [exact Hcalls|exact Hend].
Qed.

(** The amended C1 on the registry holding command "a", host not ready. *)
Lemma executeCommand_registered_witness :
  CommandsRegistry (MkCommandService false one_command) !! "a" = Some (MkCommand "a" (Handler 1)) /\
  run_calls (run_sync quiet_services (MkCommandService false one_command) (executeCommand "a" []))
  = dispatch_calls "a" ++ [onWillExecuteCommand_fire (MkCommandEvent "a");
                           instantiationService_invokeFunction (Handler 1) []].
Proof.
  split; [reflexivity|].
  exact (proj1 (executeCommand_registered quiet_services (MkCommandService false one_command)
                  "a" [] (MkCommand "a" (Handler 1)) eq_refl)).
Defined.

(** C1 as the spec words it fails: with the host ready and command "a"
    registered, [executeCommand "a"] stops at the wait on the activation
    future, and the handler has not been invoked. *)
Lemma executeCommand_ready_registered_waits :
  _extensionHostIsReady (MkCommandService true one_command) = true /\
  CommandsRegistry (MkCommandService true one_command) !! "a" = Some (MkCommand "a" (Handler 1)) /\
  run_wait (run_sync quiet_services (MkCommandService true one_command) (executeCommand "a" []))
  = Some (then_any (Pending 1)) /\
  instantiationService_invokeFunction (Handler 1) []
  ∉ run_calls (run_sync quiet_services (MkCommandService true one_command)
                 (executeCommand "a" [])).
Proof.
  split; [reflexivity|]. split; [reflexivity|]. split; [reflexivity|].
  intros Hin. vm_compute in Hin.
  repeat (apply elem_of_cons in Hin as [Hin|Hin]; [discriminate Hin|]).
  by apply elem_of_nil in Hin.
Qed.

(** C7, as amended.  On the branch that waits (lines 46-58: the host is
    ready, or the registry has no command for the id), the wait is the
    activation future of "onCommand:<id>", joined by [Promise.all] with the
    "*" activation exactly when the registry has no command for the id at
    dispatch; the progress indicator is given the same wait.  Once the wait
    is fulfilled, the registry is read again, in the state of that moment,
    and the handler found there is invoked after the will-execute event, the
    call ending as the handler does; with no command there the call is
    rejected as not found.  Once the wait is rejected, the call is rejected
    with the same error: nothing is looked up and nothing executed. *)
Theorem executeCommand_waits env this id args :
  _extensionHostIsReady this = true \/ CommandsRegistry this !! id = None ->
  let r := run_sync env this (executeCommand id args) in
  let activation := env 1 (extensionService_activateByEvent ("onCommand:" +:+ id)) in
  let waitFor := match CommandsRegistry this !! id with
                 | Some _ => activation
                 | None => Promise_all [activation; env 2 (extensionService_activateByEvent "*")]
                 end in
  exists k,
    run_status r = Suspended (Sg := CommandSig) (then_any waitFor) k /\
    run_calls r = dispatch_calls id
      ++ match CommandsRegistry this !! id with
         | Some _ => []
         | None => [extensionService_activateByEvent "*"]
         end
      ++ [progressService_withProgress (MkProgressOptions Window (localize_activating id))
            waitFor] /\
    (forall env' this' v command,
       CommandsRegistry this' !! id = Some command ->
       run_calls (run_sync env' this' (k (Fulfilled v)))
       = [onWillExecuteCommand_fire (MkCommandEvent id);
          instantiationService_invokeFunction (handler command) args] /\
       match env' 1 (instantiationService_invokeFunction (handler command) args) with
       | Fulfilled (JsThenable t) =>
           run_wait (run_sync env' this' (k (Fulfilled v))) = Some (then_any t)
       | Fulfilled result =>
           run_outcome (run_sync env' this' (k (Fulfilled v))) = Some (Fulfilled result)
       | Rejected e =>
           run_outcome (run_sync env' this' (k (Fulfilled v))) = Some (Rejected e)
       end) /\
    (forall env' this' v,
       CommandsRegistry this' !! id = None ->
       run_sync env' this' (k (Fulfilled v))
       = MkRun this' [] 0 (Done (Rejected (Error ("command '" +:+ id +:+ "' not found"))))) /\
    (forall env' this' e,
       run_sync env' this' (k (Rejected e)) = MkRun this' [] 0 (Done (Rejected e))).
Proof.
  intros Hslow. cbv zeta. rewrite executeCommand_dispatch, (executeCommand_else _ _ Hslow).
  assert (Hreg : commandIsRegistered this id
                 = match CommandsRegistry this !! id with Some _ => true | None => false end).
  { destruct (CommandsRegistry this !! id) as [command|] eqn:Hcmd.
    - by apply (commandIsRegistered_Some _ _ command).
    - by apply commandIsRegistered_None. }
  rewrite Hreg. clear Hreg.
  exists (then_tryExecuteCommand id args).
  destruct (CommandsRegistry this !! id) as [command|]; (split; [reflexivity|]);
    (split; [reflexivity|]).
  all: split; [|split].
  all: intros env' this'; destruct (then_tryExecuteCommand_runs env' this' id args)
         as (Hsome & Hnone & Hrej); auto.
Qed.

(** The amended C7 with the host ready and "b" not registered at dispatch:
    both activations are awaited; "b" is registered when the wait is
    fulfilled, and its handler runs. *)
Lemma executeCommand_waits_witness :
  exists k,
    run_status (run_sync quiet_services (MkCommandService true one_command)
                  (executeCommand "b" []))
    = Suspended (Sg := CommandSig) (then_any (Promise_all [Pending 1; Pending 2])) k /\
    run_calls (run_sync quiet_services (MkCommandService true two_commands)
                 (k (Fulfilled JsUndefined)))
    = [onWillExecuteCommand_fire (MkCommandEvent "b");
       instantiationService_invokeFunction (Handler 2) []].
Proof.
  destruct (executeCommand_waits quiet_services (MkCommandService true one_command) "b" []
              (or_introl eq_refl)) as (k & Hk & _ & Hthen & _).
  exists k. split; [exact Hk|].
  exact (proj1 (Hthen quiet_services (MkCommandService true two_commands) JsUndefined
                  (MkCommand "b" (Handler 2)) eq_refl)).
Defined.

(** C7 as the spec words it fails when the wait settles by rejection: with
    the host ready and "a" registered throughout, [executeCommand "a"] waits
    on the activation; when that is rejected the call ends rejected with the
    same error and makes no call: the registry is not read again and the
    handler of "a" is not invoked. *)
Lemma executeCommand_rejected_wait_skips_command :
  CommandsRegistry (MkCommandService true one_command) !! "a" = Some (MkCommand "a" (Handler 1)) /\
  exists k,
    run_status (run_sync quiet_services (MkCommandService true one_command)
                  (executeCommand "a" []))
    = Suspended (Sg := CommandSig) (then_any (Pending 1)) k /\
    run_sync quiet_services (MkCommandService true one_command)
      (k (Rejected (Error "activation failed")))
    = MkRun (MkCommandService true one_command) [] 0
        (Done (Rejected (Error "activation failed"))).
Proof.
  split; [reflexivity|]. eexists. split; reflexivity.
Qed.

(** C6, as amended.  When [executeCommand] waited and the command is absent
    from the registry once the wait is fulfilled, the call ends rejected with
    [command '<id>' not found].  When the wait is rejected, the call ends
    rejected with the error of the wait.  In both cases that run makes no
    call at all (no handler, no event, no further activation) and does not
    suspend again; nor was a handler invoked before the wait. *)
Theorem executeCommand_not_found env this id args env' this' :
  _extensionHostIsReady this = true \/ CommandsRegistry this !! id = None ->
  CommandsRegistry this' !! id = None ->
  exists w k,
    run_status (run_sync env this (executeCommand id args))
    = Suspended (Sg := CommandSig) (then_any w) k /\
    Forall (fun c => forall fn a, c <> instantiationService_invokeFunction fn a)
           (run_calls (run_sync env this (executeCommand id args))) /\
    (forall v,
       run_sync env' this' (k (Fulfilled v))
       = MkRun this' [] 0 (Done (Rejected (Error ("command '" +:+ id +:+ "' not found"))))) /\
    (forall e,
       run_sync env' this' (k (Rejected e)) = MkRun this' [] 0 (Done (Rejected e))).
Proof.
  intros Hslow Habs.
  rewrite executeCommand_dispatch, (executeCommand_else _ _ Hslow). cbv zeta.
  eexists _, _. split; [reflexivity|]. split.
  - unfold dispatch_calls. simpl.
    destruct (commandIsRegistered this id); simpl; repeat constructor; discriminate.
  - destruct (then_tryExecuteCommand_runs env' this' id args) as (_ & Hnone & Hrej).
    split; [|exact Hrej]. intros v. by apply Hnone.
Qed.

(** The amended C6 for "b", never registered, host ready. *)
Lemma executeCommand_not_found_witness :
  exists w k,
    run_status (run_sync quiet_services (MkCommandService true one_command)
                  (executeCommand "b" []))
    = Suspended (Sg := CommandSig) (then_any w) k /\
    run_outcome (run_sync quiet_services (MkCommandService true one_command)
                   (k (Fulfilled JsUndefined)))
    = Some (Rejected (Error "command 'b' not found")).
Proof.
  destruct (executeCommand_not_found quiet_services (MkCommandService true one_command) "b" []
              quiet_services (MkCommandService true one_command)
              (or_introl eq_refl) eq_refl) as (w & k & Hk & _ & Hrun & _).
  exists w, k. split; [exact Hk|]. exact (f_equal run_outcome (Hrun JsUndefined)).
Defined.

(** C6 as the spec words it fails when the wait settles by rejection: "b" is
    absent from the registry before and after the wait, the wait is rejected,
    and the call ends rejected with the error of the wait, which is not the
    not-found error and does not carry the command id. *)
Lemma executeCommand_rejected_wait_error :
  CommandsRegistry (MkCommandService true one_command) !! "b" = None /\
  exists k,
    run_status (run_sync quiet_services (MkCommandService true one_command)
                  (executeCommand "b" []))
    = Suspended (Sg := CommandSig) (then_any (Promise_all [Pending 1; Pending 2])) k /\
    run_outcome (run_sync quiet_services (MkCommandService true one_command)
                   (k (Rejected (Error "activation failed"))))
    = Some (Rejected (Error "activation failed")) /\
    Error "activation failed" <> Error ("command '" +:+ "b" +:+ "' not found").
Proof.
  split; [reflexivity|]. eexists. split; [reflexivity|]. split; [reflexivity|discriminate].
Qed.

(** ** CommandService: the readiness flag *)

Lemma sum_list_delete (bs : list nat) i b :
  bs !! i = Some b -> sum_list (delete i bs) + b = sum_list bs.
Proof.
  revert i; induction bs as [|x bs IH]; intros [|i] Hb; simplify_eq/=; [lia|].
  specialize (IH _ Hb). lia.
Qed.

Lemma writes_le_executeCommand id args :
  writes_le 0 (executeCommand id args).
Proof.
  assert (Htry : writes_le 0 (_tryExecuteCommand id args)).
  { intros this. simpl. destruct (CommandsRegistry this !! id); [|done].
    intros _ [[]|e]; simpl; try done. intros o; apply writes_le_of_outcome. }
  intros _ activation this. simpl.
  destruct (negb _ && _); [apply Htry|].
  destruct (negb _); simpl.
  - intros all _ [v|e]; [apply Htry|done].
  - intros _ [v|e]; [apply Htry|done].
Qed.

Lemma budgeted_park {A} (r : Run CommandSig CommandService A) b :
  Forall (fun t => writes_le b (thread_prog t)) (park r) ->
  exists bs', Forall2 (fun b t => writes_le b (thread_prog t)) bs' (park r) /\ sum_list bs' <= b.
Proof.
  unfold park. destruct (run_status r) as [o|w k]; intros Hp.
  - exists []. split; [constructor|simpl; lia].
  - exists [b]. split; [|simpl; lia].
    constructor; [|constructor]. rewrite Forall_singleton in Hp. exact Hp.
Qed.

Lemma latch_step spent c n c' :
  latch_inv spent c ->
  step CommandService_entry CommandsRegistry_changes c n c' ->
  latch_inv (spent + n) c' /\
  (n = 0 -> _extensionHostIsReady (heap c') = _extensionHostIsReady (heap c)) /\
  (_extensionHostIsReady (heap c) = true -> n = 0).
Proof.
  intros (bs & Hbs & Hsum & Hflag) Hstep.
  destruct Hstep as [c env t Ht|c env i A w k o Hi|c s' Hother].
  - destruct Ht as [id args]. simpl.
    destruct (run_sync_writes env (heap c) _ 0 (writes_le_executeCommand id args))
      as (Hle & Hsame & Hpark).
    assert (Hn : run_writes (run_sync env (heap c) (executeCommand id args)) = 0) by lia.
    rewrite Hn in *. specialize (Hsame eq_refl).
    destruct (budgeted_park _ _ Hpark) as (bs' & Hbs' & Hsum').
    unfold start, latch_inv, budgeted; simpl. rewrite Hsame.
    split; [|done].
    exists (bs ++ bs'). split; [by apply Forall2_app|].
    rewrite sum_list_with_app. split; [lia|]. intros; apply Hflag; lia.
  - destruct (Forall2_lookup_r _ _ _ _ _ Hbs Hi) as (b & Hb & Hk). simpl in Hk.
    destruct (run_sync_writes env (heap c) _ b (Hk o)) as (Hle & Hsame & Hpark).
    pose proof (sum_list_delete _ _ _ Hb) as Hdel.
    destruct (budgeted_park _ _ Hpark) as (bs' & Hbs' & Hsum').
    unfold resume, latch_inv, budgeted; simpl.
    split; [|split].
    + exists (delete i bs ++ bs'). split.
      { apply Forall2_app; [by apply Forall2_delete|done]. }
      rewrite sum_list_with_app. split; [lia|]. simpl.
      intros Hz. rewrite Hsame by lia. apply Hflag. lia.
    + intros Hz. simpl. by rewrite Hsame.
    + intros Hready. destruct spent as [|spent]; [|lia].
      rewrite Hflag in Hready by done. done.
  - split; [|split; [done|done]].
    exists bs. split; [done|]. split; [lia|]. simpl.
    intros Hz. rewrite Hother. apply Hflag. lia.
Qed.

Lemma latch_new env registry : latch_inv 0 (CommandService_new env registry).
Proof.
  exists [1]. split; [|split; [simpl; lia|done]].
  unfold budgeted, CommandService_new, start; simpl.
  constructor; [|constructor]. simpl. by intros [value|e].
Qed.

Lemma rises_step b b' bs :
  rises (b :: b' :: bs) = (if negb b && b' then 1 else 0) + rises (b' :: bs).
Proof. reflexivity. Qed.

Lemma falls_step b b' bs :
  falls (b :: b' :: bs) = (if b && negb b' then 1 else 0) + falls (b' :: bs).
Proof. reflexivity. Qed.

Lemma latch_execution c run : forall spent,
  latch_inv spent c ->
  execution CommandService_entry CommandsRegistry_changes c run ->
  sum_list (fst <$> run) + spent <= 1 /\
  rises (ready_history c run) <= sum_list (fst <$> run) /\
  falls (ready_history c run) = 0.
Proof.
  intros spent Hinv Hexec. revert spent Hinv.
  induction Hexec as [c|c n c' rest Hstep Hexec IH]; intros spent Hinv.
  - destruct Hinv as (bs & _ & Hsum & _). simpl. repeat split; lia.
  - destruct (latch_step _ _ _ _ Hinv Hstep) as (Hinv' & Hsame & Hready).
    destruct (IH _ Hinv') as (Hsum & Hrises & Hfalls).
    change (ready_history c ((n, c') :: rest))
      with (_extensionHostIsReady (heap c) :: ready_history c' rest).
    change (sum_list (fst <$> (n, c') :: rest)) with (n + sum_list (fst <$> rest)).
    assert (Hh : ready_history c' rest = _extensionHostIsReady (heap c')
      :: ((fun x => _extensionHostIsReady (heap (snd x))) <$> rest)) by reflexivity.
    rewrite Hh in *. rewrite rises_step, falls_step. clear Hh.
    set (R := rises (_ :: _)) in *. set (F := falls (_ :: _)) in *. clearbody R F.
    split; [lia|].
    destruct (_extensionHostIsReady (heap c)), (_extensionHostIsReady (heap c')); simpl.
    + lia.
    + specialize (Hready eq_refl). specialize (Hsame Hready). done.
    + destruct n as [|n]; [|lia]. specialize (Hsame eq_refl). done.
    + lia.
Qed.

(** C9.  In every execution of a dispatcher from its construction, whatever
    commands are executed and however the registry changes in between:
    [_extensionHostIsReady] starts [false], goes from [false] to [true] at
    most once, never goes from [true] to [false], and is assigned at most
    once in all (by the callback of the start-up signal). *)
Theorem extensionHostIsReady_latches env registry run :
  execution CommandService_entry CommandsRegistry_changes (CommandService_new env registry) run ->
  _extensionHostIsReady (heap (CommandService_new env registry)) = false /\
  rises (ready_history (CommandService_new env registry) run) <= 1 /\
  falls (ready_history (CommandService_new env registry) run) = 0 /\
  sum_list (fst <$> run) <= 1.
Proof.
  intros Hexec.
  destruct (latch_execution _ _ 0 (latch_new env registry) Hexec) as (Hsum & Hrises & Hfalls).
  split; [done|]. split; [lia|]. split; [done|lia].
Qed.

(** C9 on [sample_run]: the signal arrives with [true], then "a" runs. *)
Lemma extensionHostIsReady_latches_witness :
  execution CommandService_entry CommandsRegistry_changes
    (CommandService_new quiet_services one_command) sample_run /\
  ready_history (CommandService_new quiet_services one_command) sample_run
  = [false; true; true] /\
  rises (ready_history (CommandService_new quiet_services one_command) sample_run) <= 1.
Proof.
  assert (Hexec : execution CommandService_entry CommandsRegistry_changes
            (CommandService_new quiet_services one_command) sample_run).
  { unfold sample_run. apply execution_cons.
    - apply (step_resume _ _ _ quiet_services 0 unit (then_boolean (Pending 0)) then_setReady
               (Fulfilled true)). reflexivity.
    - apply execution_cons; [|apply execution_nil].
      exact (step_start CommandService_entry CommandsRegistry_changes _ quiet_services
               (MkThread JsVal (executeCommand "a" [])) (entry_executeCommand "a" [])). }
  split; [exact Hexec|]. split; [reflexivity|].
  exact (proj1 (proj2 (extensionHostIsReady_latches quiet_services one_command sample_run Hexec))).
Defined.

End CommandFacts.

(** ** ExtHostLanguageModelTools *)

Section ToolFacts.
Context `{Imports}.
Implicit Types (env : Oracle ToolSig) (this : ExtHostLanguageModelTools).
Implicit Types (callId toolId : string) (token : CancellationToken).

Lemma countTokensForInvokation_run env this callId input token :
  run_sync env this (rpc_countTokensForInvokation callId input token) =
  match _tokenCountFuncs this !! callId with
  | None => MkRun this [] 0 (Done (Rejected (not_found callId)))
  | Some fn => run_sync env this (apply_countTokens fn (input_to input) (Some token))
  end.
Proof.
  unfold run_sync, rpc_countTokensForInvokation. simpl.
  by destruct (_tokenCountFuncs this !! callId).
Qed.

Lemma countTokensForInvokation_absent env this callId input token :
  _tokenCountFuncs this !! callId = None ->
  run_sync env this (rpc_countTokensForInvokation callId input token)
  = MkRun this [] 0 (Done (Rejected (not_found callId))).
Proof. intros Habs. by rewrite countTokensForInvokation_run, Habs. Qed.

(** C5.  [$countTokensForInvokation] is decided by the entry of [callId] in
    [_tokenCountFuncs] alone.  With no entry it ends at once, rejected with
    [Tool invokation call <callId> not found]: no call, no wait, no number.
    With an entry it suspends on the call of exactly that function, on the
    converted input and the given token, and returns what that call gives. *)
Theorem countTokensForInvokation_by_callId env this callId input token :
  run_sync env this (rpc_countTokensForInvokation callId input token) =
  match _tokenCountFuncs this !! callId with
  | None =>
      MkRun this [] 0
        (Done (Rejected (Error ("Tool invokation call " +:+ callId +:+ " not found"))))
  | Some (countTokens_of h) =>
      MkRun (Sg := ToolSig) this [] 0
        (Suspended (Sg := ToolSig) (countTokens_apply h (input_to input) (Some token))
           of_outcome)
  | Some (countTokens_via_proxy origin) =>
      MkRun (Sg := ToolSig) this [] 0
        (Suspended (Sg := ToolSig)
           (countTokens_call (countTokens_via_proxy origin) (input_to input) (Some token))
           of_outcome)
  end.
Proof.
  rewrite countTokensForInvokation_run.
  destruct (_tokenCountFuncs this !! callId) as [[h|origin]|]; reflexivity.
Qed.


(** C2.  [invokeTool] suspends on its request, which carries the call id it
    drew.  However the request settles (fulfilled, or rejected: a failure of
    the far side's [$invokeTool], a cancellation), and whatever the state has
    become in between, the run that follows ends the invocation with the
    converted result or the unchanged error, and leaves no entry for the call
    id in [_tokenCountFuncs]; a [$countTokensForInvokation] with that id is
    then rejected with the not-found error. *)
Theorem invokeTool_cleanup env this toolId options token :
  exists k,
    run_status (run_sync env this (invokeTool toolId options token))
    = Suspended (Sg := ToolSig)
        (proxy_invokeTool (request toolId (uuid (uuids_issued this)) options) token) k /\
    (forall supplied,
       tokenOptions options = Some supplied ->
       _tokenCountFuncs (run_state (run_sync env this (invokeTool toolId options token)))
         !! uuid (uuids_issued this) = Some (countTokens supplied)) /\
    forall env' this' (settled : Outcome IToolResult),
      run_outcome (run_sync env' this' (k settled))
      = Some (match settled with
              | Fulfilled result => Fulfilled (LanguageModelToolResult_to result)
              | Rejected e => Rejected e
              end) /\
      _tokenCountFuncs (run_state (run_sync env' this' (k settled)))
        !! uuid (uuids_issued this) = None /\
      forall env'' input token',
        run_sync env'' (run_state (run_sync env' this' (k settled)))
          (rpc_countTokensForInvokation (uuid (uuids_issued this)) input token')
        = MkRun (run_state (run_sync env' this' (k settled))) [] 0
            (Done (Rejected (Error ("Tool invokation call " +:+ uuid (uuids_issued this)
                                    +:+ " not found")))).
Proof.
  unfold run_sync at 1 2, invokeTool, request. simpl.
  destruct (tokenOptions options) as [supplied|]; simpl.
  all: eexists; split; [reflexivity|]; split.
  all: try (intros ? [= <-]; simpl; by rewrite lookup_insert_eq).
  all: try done.
  all: intros env' this' settled.
  all: assert (Hgone : _tokenCountFuncs
         (set_tokenCountFuncs (delete (uuid (uuids_issued this))) this')
         !! uuid (uuids_issued this) = None) by (simpl; apply lookup_delete_eq).
  all: destruct settled as [result|e]; simpl; (split; [reflexivity|]); (split; [exact Hgone|]).
  all: intros env'' input token'; by apply countTokensForInvokation_absent.
Qed.

(** C4.  [$invokeTool] for a tool id with no entry in [_registeredTools] ends
    at once, rejected with [Unknown tool <id>]; it makes no call, does not
    suspend, and leaves the object as it was: [_registeredTools], [_allTools]
    and [_tokenCountFuncs] alike. *)
Theorem rpc_invokeTool_unknown env this dto token :
  _registeredTools this !! toolId dto = None ->
  run_sync env this (rpc_invokeTool dto token)
  = MkRun this [] 0 (Done (Rejected (Error ("Unknown tool " +:+ toolId dto)))) /\
  _registeredTools (run_state (run_sync env this (rpc_invokeTool dto token)))
  = _registeredTools this /\
  _allTools (run_state (run_sync env this (rpc_invokeTool dto token))) = _allTools this.
Proof.
  intros Habs. unfold run_sync, rpc_invokeTool. simpl. by rewrite Habs.
Qed.

(** C10.  With the tool registered and a token budget in the request,
    [$invokeTool] suspends on the handler's [invoke], whose options carry the
    budget and, as [countTokens], the entry of [dto.callId] in this host's own
    [_tokenCountFuncs] when there is one, and otherwise the arrow function
    that goes back to the caller through the proxy's
    [$countTokensForInvokation] with the same call id. *)
Theorem rpc_invokeTool_countTokens env this dto token item budget :
  _registeredTools this !! toolId dto = Some item ->
  tokenBudget dto = Some budget ->
  exists k,
    run_sync env this (rpc_invokeTool dto token)
    = MkRun (Sg := ToolSig) this [] 0
        (Suspended (Sg := ToolSig)
           (tool_invoke (tool item)
              (MkOptions (parameters dto)
                 (Some (MkTokenOptions budget
                          (match _tokenCountFuncs this !! callId dto with
                           | Some local => local
                           | None => countTokens_via_proxy (callId dto)
                           end))))
              token)
           k) /\
    (forall extensionResult,
       k (Fulfilled extensionResult) = Ret (LanguageModelToolResult_from extensionResult)) /\
    forall env' this' value (passed : option CancellationToken),
      run_wait (run_sync env' this'
                  (apply_countTokens (countTokens_via_proxy (callId dto)) value passed))
      = Some (proxy_countTokensForInvokation (callId dto)
                (match value with
                 | inl text => inl text
                 | inr message => inr (LanguageModelChatMessage_from message)
                 end)
                (default CancellationToken_None passed)).
Proof.
  intros Hitem Hbudget. unfold run_sync, rpc_invokeTool. simpl.
  rewrite Hitem, Hbudget. simpl. eexists. split; [|split; [|done]].
  - by destruct (_tokenCountFuncs this !! callId dto).
  - done.
Qed.

(** *** Tool deltas *)

Lemma acceptToolDelta_run env this delta :
  let r := run_sync env this (rpc_acceptToolDelta delta) in
  run_outcome r = Some (Fulfilled tt) /\
  run_calls r = [] /\
  _registeredTools (run_state r) = _registeredTools this /\
  _tokenCountFuncs (run_state r) = _tokenCountFuncs this /\
  uuids_issued (run_state r) = uuids_issued this /\
  _allTools (run_state r)
  = (match removed delta with
     | Some x => if truthy x then delete x else fun all => all
     | None => fun all => all
     end)
      ((match added delta with
        | Some t => <[id t := t]>
        | None => fun all => all
        end) (_allTools this)).
Proof.
  unfold run_sync, rpc_acceptToolDelta.
  destruct delta as [[t|] [x|]]; simpl; try destruct (truthy x); simpl; done.
Qed.




(** *** Call ids *)

Lemma turn_guarantee_refl : Reflexive turn_guarantee.
Proof. intros s. split; [lia|]. intros key. by left. Qed.
#[local] Existing Instance turn_guarantee_refl.








Lemma start_invokeTool_step env c toolId options token :
  tool_step c (start env c (invokeTool toolId options token)).
Proof.
  eexists. exact (step_start _ _ c env (MkThread _ (invokeTool toolId options token))
                    (entry_invokeTool toolId options token)).
Qed.




End ToolFacts.

(** *** The tool bridge on sample inputs *)

(** C4 for the tool id "missing" on a new extension host. *)
Lemma rpc_invokeTool_unknown_witness :
  _registeredTools (ExtHostLanguageModelTools_fresh 0) !! "missing" = None /\
  run_sync silent_proxy (ExtHostLanguageModelTools_fresh 0)
    (rpc_invokeTool (H := decimal_imports) (MkDto "missing" "0" JsUndefined None)
       CancellationToken_None)
  = MkRun (ExtHostLanguageModelTools_fresh 0) [] 0
      (Done (Rejected (Error "Unknown tool missing"))).
Proof.
  split; [reflexivity|].
  exact (proj1 (rpc_invokeTool_unknown (H := decimal_imports) silent_proxy
                  (ExtHostLanguageModelTools_fresh 0) (MkDto "missing" "0" JsUndefined None)
                  CancellationToken_None eq_refl)).
Defined.

(** C10 on [busy_host]: a request for "search" under call id "7", which has
    a local counting function, hands that function to the tool; under call
    id "9", which has none, it hands the round trip to the peer. *)
Lemma rpc_invokeTool_countTokens_witness :
  _registeredTools busy_host !! "search"
  = Some (MkRegisteredTool (ExtensionDescription "ext") (Tool 1)) /\
  run_wait (run_sync silent_proxy busy_host
              (rpc_invokeTool (H := decimal_imports)
                 (MkDto "search" "7" JsUndefined (Some 100%Z)) CancellationToken_None))
  = Some (tool_invoke (Tool 1)
            (MkOptions JsUndefined (Some (MkTokenOptions 100 (countTokens_of 3))))
            CancellationToken_None) /\
  run_wait (run_sync silent_proxy busy_host
              (rpc_invokeTool (H := decimal_imports)
                 (MkDto "search" "9" JsUndefined (Some 100%Z)) CancellationToken_None))
  = Some (tool_invoke (Tool 1)
            (MkOptions JsUndefined (Some (MkTokenOptions 100 (countTokens_via_proxy "9"))))
            CancellationToken_None).
Proof.
  split; [reflexivity|]. split.
  - destruct (rpc_invokeTool_countTokens (H := decimal_imports) silent_proxy busy_host
                (MkDto "search" "7" JsUndefined (Some 100%Z)) CancellationToken_None
                (MkRegisteredTool (ExtensionDescription "ext") (Tool 1)) 100%Z
                eq_refl eq_refl) as (k & Hrun & _).
    rewrite Hrun. reflexivity.
  - destruct (rpc_invokeTool_countTokens (H := decimal_imports) silent_proxy busy_host
                (MkDto "search" "9" JsUndefined (Some 100%Z)) CancellationToken_None
                (MkRegisteredTool (ExtensionDescription "ext") (Tool 1)) 100%Z
                eq_refl eq_refl) as (k & Hrun & _).
    rewrite Hrun. reflexivity.
Defined.


(** C3.  The code does not do what C3 asks at the empty id: [{added: T}]
    with [T.id] the empty string stores [T] (line 66 guards on the object
    [delta.added], which is truthy), and the following [{removed: T.id}] is
    skipped, the guard [if (delta.removed)] of line 69 being falsy for the
    empty string; the table still holds [T] under that id. *)
Lemma acceptToolDelta_empty_id_stays :
  id unnamed_tool = "" /\
  _allTools
    (run_state
       (run_sync silent_proxy
          (run_state
             (run_sync silent_proxy (ExtHostLanguageModelTools_fresh 0)
                (rpc_acceptToolDelta (MkToolDelta (Some unnamed_tool) None))))
          (rpc_acceptToolDelta (MkToolDelta None (Some (id unnamed_tool))))))
    !! id unnamed_tool = Some unnamed_tool.
Proof. split; reflexivity. Qed.



(** * Further properties *)

(** ** CommandService *)

Section CommandMore.
Implicit Types (env : Oracle CommandSig) (this : CommandService) (command : ICommand).

(** X1.  On every path, [executeCommand] first logs and sends the activation
    event of the command, also when it will not wait for it.  It sends the
    broadcast "*" activation exactly when the registry holds no command for
    the id at dispatch.  It opens the progress indicator exactly when it
    waits for activation, that is, when its synchronous run ends suspended
    with no handler invoked; the indicator then carries the window location
    and the activation title of the command, and the very wait
    [executeCommand] is suspended on. *)
Theorem executeCommand_activations env this id args :
  (exists rest,
     run_calls (run_sync env this (executeCommand id args)) = dispatch_calls id ++ rest) /\
  (extensionService_activateByEvent "*"
     ∈ run_calls (run_sync env this (executeCommand id args))
   <-> CommandsRegistry this !! id = None) /\
  ((exists options task,
      progressService_withProgress options task
        ∈ run_calls (run_sync env this (executeCommand id args)))
   <-> (exists w, run_wait (run_sync env this (executeCommand id args)) = Some w) /\
       (forall fn a,
          instantiationService_invokeFunction fn a
            ∉ run_calls (run_sync env this (executeCommand id args)))) /\
  (forall options task,
     progressService_withProgress options task
       ∈ run_calls (run_sync env this (executeCommand id args)) ->
     options = MkProgressOptions Window (localize_activating id) /\
     run_wait (run_sync env this (executeCommand id args)) = Some (then_any task)).
Proof.
  rewrite executeCommand_dispatch. cbv zeta.
  assert (Hreg : commandIsRegistered this id
                 = match CommandsRegistry this !! id with Some _ => true | None => false end).
  { destruct (CommandsRegistry this !! id) as [command|] eqn:Hcmd.
    - by apply (commandIsRegistered_Some _ _ command).
    - by apply commandIsRegistered_None. }
  destruct (negb (_extensionHostIsReady this) && commandIsRegistered this id) eqn:Hfast.
  - apply andb_true_iff in Hfast as [_ Hfast]. rewrite Hreg in Hfast.
    destruct (CommandsRegistry this !! id) as [command|] eqn:Hcmd; [clear Hfast|done].
    destruct (tryExecuteCommand_present env this id args command (dispatch_calls id) 0 Hcmd)
      as (Hcalls & _).
    rewrite Hcalls. unfold dispatch_calls.
    split; [by eexists|]. split; [|split].
    + split; [|done]. intros Hin.
      repeat (apply elem_of_cons in Hin as [Hin|Hin]; [discriminate Hin|]).
      by apply elem_of_nil in Hin.
    + split.
      * intros (options & task & Hin).
        repeat (apply elem_of_cons in Hin as [Hin|Hin]; [discriminate Hin|]).
        by apply elem_of_nil in Hin.
      * intros [_ Hnone]. exfalso. apply (Hnone (handler command) args).
        do 3 apply list_elem_of_further. apply list_elem_of_here.
    + intros options task Hin.
      repeat (apply elem_of_cons in Hin as [Hin|Hin]; [discriminate Hin|]).
      by apply elem_of_nil in Hin.
  - rewrite Hreg. clear Hreg Hfast. unfold dispatch_calls.
    destruct (CommandsRegistry this !! id) as [command|]; simpl.
    all: split; [by eexists|]; split; [|split].
    + split; [|done]. intros Hin.
      repeat (apply elem_of_cons in Hin as [Hin|Hin]; [discriminate Hin|]).
      by apply elem_of_nil in Hin.
    + split.
      * intros _. split; [by eexists|]. intros fn a Hin.
        repeat (apply elem_of_cons in Hin as [Hin|Hin]; [discriminate Hin|]).
        by apply elem_of_nil in Hin.
      * intros _. eexists _, _. do 2 apply list_elem_of_further. apply list_elem_of_here.
    + intros options task Hin.
      repeat (apply elem_of_cons in Hin as [Hin|Hin]; [try discriminate Hin|]).
      * by injection Hin as -> ->.
      * by apply elem_of_nil in Hin.
    + split; [done|]. intros _. do 2 apply list_elem_of_further. apply list_elem_of_here.
    + split.
      * intros _. split; [by eexists|]. intros fn a Hin.
        repeat (apply elem_of_cons in Hin as [Hin|Hin]; [discriminate Hin|]).
        by apply elem_of_nil in Hin.
      * intros _. eexists _, _. do 3 apply list_elem_of_further. apply list_elem_of_here.
    + intros options task Hin.
      repeat (apply elem_of_cons in Hin as [Hin|Hin]; [try discriminate Hin|]).
      * by injection Hin as -> ->.
      * by apply elem_of_nil in Hin.
Qed.

(** X1 for "b", not registered, on a ready host: the indicator is opened on
    the joined wait, which is the wait [executeCommand] is suspended on. *)
Lemma executeCommand_activations_witness :
  progressService_withProgress (MkProgressOptions Window (localize_activating "b"))
    (Promise_all [Pending 1; Pending 2])
    ∈ run_calls (run_sync quiet_services (MkCommandService true one_command)
                   (executeCommand "b" [])) /\
  run_wait (run_sync quiet_services (MkCommandService true one_command) (executeCommand "b" []))
  = Some (then_any (Promise_all [Pending 1; Pending 2])).
Proof.
  assert (Hin : progressService_withProgress (MkProgressOptions Window (localize_activating "b"))
                  (Promise_all [Pending 1; Pending 2])
                  ∈ run_calls (run_sync quiet_services (MkCommandService true one_command)
                                 (executeCommand "b" []))).
  { cbv. do 3 apply list_elem_of_further. apply list_elem_of_here. }
  split; [exact Hin|].
  exact (proj2 (proj2 (proj2 (proj2
           (executeCommand_activations quiet_services (MkCommandService true one_command)
              "b" [])))
           _ _ Hin)).
Defined.

(** X2.  Activation on demand.  When [executeCommand] waited and the registry
    holds the command once the wait is fulfilled (registered in the meantime,
    or registered anew), the handler that is registered then is the one
    invoked, with the caller's arguments, after the will-execute event; how
    it ends is how the command ends. *)
Theorem executeCommand_after_activation env this id args env' this' v command :
  _extensionHostIsReady this = true \/ CommandsRegistry this !! id = None ->
  CommandsRegistry this' !! id = Some command ->
  exists w k,
    run_status (run_sync env this (executeCommand id args))
    = Suspended (Sg := CommandSig) (then_any w) k /\
    run_calls (run_sync env' this' (k (Fulfilled v)))
    = [onWillExecuteCommand_fire (MkCommandEvent id);
       instantiationService_invokeFunction (handler command) args] /\
    match env' 1 (instantiationService_invokeFunction (handler command) args) with
    | Fulfilled (JsThenable t) =>
        run_wait (run_sync env' this' (k (Fulfilled v))) = Some (then_any t)
    | Fulfilled result =>
        run_outcome (run_sync env' this' (k (Fulfilled v))) = Some (Fulfilled result)
    | Rejected e =>
        run_outcome (run_sync env' this' (k (Fulfilled v))) = Some (Rejected e)
    end.
Proof.
  intros Hslow Hcmd.
  rewrite executeCommand_dispatch, (executeCommand_else _ _ Hslow). cbv zeta.
  eexists _, _. split; [reflexivity|]. simpl.
  destruct (tryExecuteCommand_present env' this' id args command [] 0 Hcmd)
    as (Hcalls & _ & _ & Hend).
  split; [exact Hcalls|exact Hend].
Qed.

(** The witness: "b" is not registered at dispatch and is registered, with
    handler 2, when the wait is fulfilled. *)
Lemma executeCommand_after_activation_witness :
  CommandsRegistry (MkCommandService true one_command) !! "b" = None /\
  exists w k,
    run_status (run_sync quiet_services (MkCommandService true one_command)
                  (executeCommand "b" [JsNumber 1]))
    = Suspended (Sg := CommandSig) (then_any w) k /\
    run_calls (run_sync quiet_services
                 (MkCommandService true two_commands)
                 (k (Fulfilled JsUndefined)))
    = [onWillExecuteCommand_fire (MkCommandEvent "b");
       instantiationService_invokeFunction (Handler 2) [JsNumber 1]].
Proof.
  split; [reflexivity|].
  destruct (executeCommand_after_activation quiet_services (MkCommandService true one_command)
              "b" [JsNumber 1] quiet_services
              (MkCommandService true two_commands)
              JsUndefined (MkCommand "b" (Handler 2)) (or_introl eq_refl)
              eq_refl)
    as (w & k & Hk & Hcalls & _).
  exists w, k. split; [exact Hk|exact Hcalls].
Defined.

(** *** The flag and the start-up signal *)

Lemma sum_list_lookup_le (bs : list nat) i b :
  bs !! i = Some b -> b <= sum_list bs.
Proof. intros Hb. pose proof (sum_list_delete _ _ _ Hb). lia. Qed.

Lemma sum_list_zero (bs : list nat) :
  sum_list bs = 0 -> Forall (fun b => b = 0) bs.
Proof.
  induction bs as [|b bs IH]; simpl; [constructor|].
  intros Hsum. constructor; [lia|]. apply IH. lia.
Qed.

Lemma budgeted_zero bs (ts : list (Thread CommandSig CommandService)) :
  Forall2 (fun b t => writes_le b (thread_prog t)) bs ts ->
  Forall (fun b => b = 0) bs ->
  Forall (fun t => writes_le 0 (thread_prog t)) ts.
Proof.
  induction 1 as [|b t bs ts Hbt _ IH]; intros Hz; [constructor|].
  apply Forall_cons in Hz as [-> Hz]. constructor; [done|by apply IH].
Qed.

Lemma last_config_cons {Sg St} (c : Config Sg St) n c' rest :
  last_config c ((n, c') :: rest) = last_config c' rest.
Proof. reflexivity. Qed.

Lemma latch_reach c run : forall spent,
  latch_inv spent c ->
  execution CommandService_entry CommandsRegistry_changes c run ->
  latch_inv (spent + sum_list (fst <$> run)) (last_config c run).
Proof.
  intros spent Hinv Hexec. revert spent Hinv.
  induction Hexec as [c|c n c' rest Hstep Hexec IH]; intros spent Hinv.
  - simpl. by rewrite Nat.add_0_r.
  - destruct (latch_step _ _ _ _ Hinv Hstep) as (Hinv' & _).
    rewrite last_config_cons.
    change (sum_list (fst <$> (n, c') :: rest)) with (n + sum_list (fst <$> rest)).
    rewrite Nat.add_assoc. by apply IH.
Qed.

(** While the start-up callback is still waiting, nothing has been assigned
    and every other continuation has nothing to assign. *)
Lemma pending_signal spent c i t :
  latch_inv spent c ->
  pool c !! i = Some (MkThread unit (Await (Sg := CommandSig) (then_boolean t) then_setReady)) ->
  _extensionHostIsReady (heap c) = false /\
  Forall (fun t => writes_le 0 (thread_prog t)) (delete i (pool c)).
Proof.
  intros (bs & Hbs & Hsum & Hflag) Hi.
  destruct (Forall2_lookup_r _ _ _ _ _ Hbs Hi) as (b & Hb & Hw). simpl in Hw.
  specialize (Hw (Fulfilled true)). simpl in Hw.
  destruct b as [|b]; [done|].
  pose proof (sum_list_delete _ _ _ Hb) as Hdel.
  split; [apply Hflag; lia|].
  apply (budgeted_zero (delete i bs)); [by apply Forall2_delete|].
  apply sum_list_zero. lia.
Qed.

Lemma quiescent_step c n c' :
  quiescent c ->
  step CommandService_entry CommandsRegistry_changes c n c' ->
  quiescent c' /\ n = 0 /\ _extensionHostIsReady (heap c') = _extensionHostIsReady (heap c).
Proof.
  intros Hq Hstep. destruct Hstep as [c env t Ht|c env i A w k o Hi|c s' Hother].
  - destruct Ht as [id args].
    destruct (run_sync_writes env (heap c) _ 0 (writes_le_executeCommand id args))
      as (Hle & Hsame & Hpark).
    assert (Hn : run_writes (run_sync env (heap c) (executeCommand id args)) = 0) by lia.
    rewrite Hn in *. unfold quiescent, start; simpl. rewrite (Hsame eq_refl).
    split; [by apply Forall_app|done].
  - pose proof (Forall_lookup_1 _ _ _ _ Hq Hi) as Hk. simpl in Hk.
    destruct (run_sync_writes env (heap c) _ 0 (Hk o)) as (Hle & Hsame & Hpark).
    assert (Hn : run_writes (run_sync env (heap c) (k o)) = 0) by lia.
    rewrite Hn in *. unfold quiescent, resume; simpl. rewrite (Hsame eq_refl).
    split; [|done]. apply Forall_app. split; [by apply Forall_delete|done].
  - done.
Qed.

Lemma quiescent_execution c run :
  quiescent c ->
  execution CommandService_entry CommandsRegistry_changes c run ->
  Forall (fun b => b = _extensionHostIsReady (heap c)) (ready_history c run).
Proof.
  intros Hq Hexec. induction Hexec as [c|c n c' rest Hstep Hexec IH].
  - by repeat constructor.
  - destruct (quiescent_step _ _ _ Hq Hstep) as (Hq' & _ & Hsame).
    change (ready_history c ((n, c') :: rest))
      with (_extensionHostIsReady (heap c) :: ready_history c' rest).
    constructor; [done|]. rewrite <- Hsame. by apply IH.
Qed.

(** X3.  As long as the callback of the start-up signal is still waiting, the
    flag is [false], whatever has been executed since the construction. *)
Theorem extensionHostIsReady_pending env registry run i t :
  execution CommandService_entry CommandsRegistry_changes (CommandService_new env registry) run ->
  pool (last_config (CommandService_new env registry) run) !! i
  = Some (MkThread unit (Await (Sg := CommandSig) (then_boolean t) then_setReady)) ->
  _extensionHostIsReady (heap (last_config (CommandService_new env registry) run)) = false.
Proof.
  intros Hexec Hi.
  pose proof (latch_reach _ _ 0 (latch_new env registry) Hexec) as Hinv.
  by destruct (pending_signal _ _ _ _ Hinv Hi).
Qed.

Lemma early_requests_execution :
  execution CommandService_entry CommandsRegistry_changes
    (CommandService_new quiet_services one_command) early_requests.
Proof.
  unfold early_requests.
  apply execution_cons.
  { exact (step_start CommandService_entry CommandsRegistry_changes _ quiet_services
             (MkThread JsVal (executeCommand "b" [])) (entry_executeCommand "b" [])). }
  apply execution_cons.
  { exact (step_other CommandService_entry CommandsRegistry_changes requested_b
             (MkCommandService false two_commands) eq_refl). }
  apply execution_cons; [|apply execution_nil].
  exact (step_start CommandService_entry CommandsRegistry_changes _ quiet_services
           (MkThread JsVal (executeCommand "a" [])) (entry_executeCommand "a" [])).
Defined.

(** X3 after three turns with the signal still pending: "b" requested and
    left waiting for activation, "b" registered by other code, "a" requested
    and its handler invoked.  The callback of the signal is still the first
    suspended continuation, a second one waits for "b", and the flag is
    [false]. *)
Lemma extensionHostIsReady_pending_witness :
  execution CommandService_entry CommandsRegistry_changes
    (CommandService_new quiet_services one_command) early_requests /\
  pool (last_config (CommandService_new quiet_services one_command) early_requests)
  = [MkThread unit (Await (Sg := CommandSig) (then_boolean (Pending 0)) then_setReady);
     MkThread JsVal (Await (Sg := CommandSig) (then_any (Promise_all [Pending 1; Pending 2]))
                       (then_tryExecuteCommand "b" []))] /\
  CommandsRegistry
    (heap (last_config (CommandService_new quiet_services one_command) early_requests))
  = two_commands /\
  _extensionHostIsReady
    (heap (last_config (CommandService_new quiet_services one_command) early_requests))
  = false.
Proof.
  split; [exact early_requests_execution|]. split; [reflexivity|]. split; [reflexivity|].
  exact (extensionHostIsReady_pending quiet_services one_command early_requests 0 (Pending 0)
           early_requests_execution eq_refl).
Defined.

(** X4.  Once the start-up signal settles, the flag holds the value it carried
    ([false] when it was rejected) in every configuration from then on,
    whatever is executed afterwards. *)
Theorem extensionHostIsReady_follows_signal env registry run i t env' o run' :
  execution CommandService_entry CommandsRegistry_changes (CommandService_new env registry) run ->
  pool (last_config (CommandService_new env registry) run) !! i
  = Some (MkThread unit (Await (Sg := CommandSig) (then_boolean t) then_setReady)) ->
  execution CommandService_entry CommandsRegistry_changes
    (resume env' (last_config (CommandService_new env registry) run) i
       (then_boolean t) then_setReady o) run' ->
  Forall (fun b => b = signalled o)
    (ready_history
       (resume env' (last_config (CommandService_new env registry) run) i
          (then_boolean t) then_setReady o) run').
Proof.
  intros Hexec Hi Hexec'.
  pose proof (latch_reach _ _ 0 (latch_new env registry) Hexec) as Hinv.
  destruct (pending_signal _ _ _ _ Hinv Hi) as [Hfalse Hrest].
  set (c := last_config (CommandService_new env registry) run) in *.
  assert (Hq : quiescent (resume env' c i (then_boolean t) then_setReady o)).
  { unfold quiescent, resume. destruct o as [value|e]; simpl; by rewrite app_nil_r. }
  assert (Hflag : _extensionHostIsReady
            (heap (resume env' c i (then_boolean t) then_setReady o)) = signalled o).
  { unfold resume. destruct o as [value|e]; simpl; [done|exact Hfalse]. }
  rewrite <- Hflag. by apply quiescent_execution.
Qed.

Lemma extensionHostIsReady_follows_signal_witness :
  ready_history
    (resume quiet_services (last_config (CommandService_new quiet_services one_command) []) 0
       (then_boolean (Pending 0)) then_setReady (Fulfilled true))
    [(0, start quiet_services
           (resume quiet_services (CommandService_new quiet_services one_command) 0
              (then_boolean (Pending 0)) then_setReady (Fulfilled true))
           (executeCommand "a" []))]
  = [true; true] /\
  Forall (fun b => b = true)
    (ready_history
       (resume quiet_services (last_config (CommandService_new quiet_services one_command) []) 0
          (then_boolean (Pending 0)) then_setReady (Fulfilled true))
       [(0, start quiet_services
              (resume quiet_services (CommandService_new quiet_services one_command) 0
                 (then_boolean (Pending 0)) then_setReady (Fulfilled true))
              (executeCommand "a" []))]).
Proof.
  split; [reflexivity|].
  refine (extensionHostIsReady_follows_signal quiet_services one_command [] 0 (Pending 0)
            quiet_services (Fulfilled true) _ (execution_nil _ _ _) eq_refl _).
  apply execution_cons; [|apply execution_nil].
  exact (step_start CommandService_entry CommandsRegistry_changes _ quiet_services
           (MkThread JsVal (executeCommand "a" [])) (entry_executeCommand "a" [])).
Defined.

End CommandMore.

(** ** ExtHostLanguageModelTools *)

Section ToolMore.
Context `{Imports}.
Implicit Types (env : Oracle ToolSig) (this : ExtHostLanguageModelTools).
Implicit Types (callId toolId name : string) (token : CancellationToken).

(** X5.  Registration is one slot per name, and disposal is unconditional.  Of two
    registrations under one name the second is the one [$invokeTool] runs;
    disposing a registration of that name then clears the slot, so that
    [$invokeTool] no longer knows the tool.  Each step tells the peer
    ([$registerTool], [$unregisterTool]), and none of them touches the mirror
    table [_allTools]. *)
Theorem registerTool_slot env this name extension1 tool1 extension2 tool2
    callId parameters token :
  let s1 := run_state (run_sync env this (registerTool extension1 name tool1)) in
  let s2 := run_state (run_sync env s1 (registerTool extension2 name tool2)) in
  let s3 := run_state (run_sync env s2 (registerTool_dispose name)) in
  run_calls (run_sync env this (registerTool extension1 name tool1)) = [proxy_registerTool name] /\
  run_calls (run_sync env s2 (registerTool_dispose name)) = [proxy_unregisterTool name] /\
  run_wait (run_sync env s1 (rpc_invokeTool (MkDto name callId parameters None) token))
  = Some (tool_invoke tool1 (MkOptions parameters None) token) /\
  run_wait (run_sync env s2 (rpc_invokeTool (MkDto name callId parameters None) token))
  = Some (tool_invoke tool2 (MkOptions parameters None) token) /\
  run_outcome (run_sync env s3 (rpc_invokeTool (MkDto name callId parameters None) token))
  = Some (Rejected (Error ("Unknown tool " +:+ name))) /\
  _allTools s3 = _allTools this /\
  forall other, other <> name -> _registeredTools s3 !! other = _registeredTools this !! other.
Proof.
  cbv zeta. unfold run_sync, registerTool, registerTool_dispose, rpc_invokeTool. simpl.
  rewrite !lookup_insert_eq, lookup_delete_eq. simpl.
  repeat split; try done.
  intros other Hne. by rewrite lookup_delete_ne, !lookup_insert_ne.
Qed.


(** X7.  From the tool back to the caller.  When the request of [invokeTool] is
    served by [$invokeTool] and the answer of that is what settles the
    request, the caller gets the tool's result converted to the wire and
    back, and a failure of the tool as the very same error; whatever the
    object holds when each of the two resumes. *)
Theorem invokeTool_relays_tool_outcome env env1 env2 env3 this this1 this2 this3
    toolId options token item (settled : Outcome LanguageModelToolResult) :
  _registeredTools this1 !! toolId = Some item ->
  exists k served k',
    run_status (run_sync env this (invokeTool toolId options token))
    = Suspended (Sg := ToolSig)
        (proxy_invokeTool (request toolId (uuid (uuids_issued this)) options) token) k /\
    run_status (run_sync env1 this1
                  (rpc_invokeTool (request toolId (uuid (uuids_issued this)) options) token))
    = Suspended (Sg := ToolSig) (tool_invoke (tool item) served token) k' /\
    exists relayed,
      run_outcome (run_sync env2 this2 (k' settled)) = Some relayed /\
      run_outcome (run_sync env3 this3 (k relayed))
      = Some (match settled with
              | Fulfilled result =>
                  Fulfilled (LanguageModelToolResult_to (LanguageModelToolResult_from result))
              | Rejected e => Rejected e
              end).
Proof.
  intros Hitem.
  unfold run_sync at 1, invokeTool, request. simpl.
  destruct (tokenOptions options) as [supplied|]; simpl.
  all: unfold run_sync at 1, rpc_invokeTool; simpl; rewrite Hitem; simpl.
  all: eexists _, _, _; split; [reflexivity|]; split; [reflexivity|].
  all: destruct settled as [result|e]; simpl; eexists; split; reflexivity.
Qed.


(** X8.  The token-count bridge, end to end.  When a tool calls the counting
    function that [$invokeTool] built for call id [callId], and the request
    this sends is served by [$countTokensForInvokation] on a host where
    [callId] has counting function [fn], then [fn] is what runs: on the same
    text when the value is a string, on the message converted to the wire
    and back otherwise, and always with a token, [CancellationToken.None]
    when the tool passed none. *)
Theorem countTokens_bridge env env' this this' callId fn value
    (passed : option CancellationToken) :
  _tokenCountFuncs this !! callId = Some fn ->
  exists input,
    run_wait (run_sync env' this'
                (apply_countTokens (countTokens_via_proxy callId) value passed))
    = Some (proxy_countTokensForInvokation callId input
              (default CancellationToken_None passed)) /\
    run_wait (run_sync env this
                (rpc_countTokensForInvokation callId input
                   (default CancellationToken_None passed)))
    = Some (countTokens_call fn
              (match value with
               | inl text => inl text
               | inr message =>
                   inr (LanguageModelChatMessage_to (LanguageModelChatMessage_from message))
               end)
              (Some (default CancellationToken_None passed))).
Proof.
  intros Hfn. eexists. split; [reflexivity|].
  rewrite countTokensForInvokation_run, Hfn.
  by destruct fn as [h|origin], value as [text|message].
Qed.

(** X9.  Settling an invocation removes its own entry and nothing else: the
    object is as it was when the request settled, less the entry of this
    call id; no other call id loses its counting function, and nothing is
    sent. *)
Theorem invokeTool_settles_own_entry env this toolId options token :
  exists k,
    run_status (run_sync env this (invokeTool toolId options token))
    = Suspended (Sg := ToolSig)
        (proxy_invokeTool (request toolId (uuid (uuids_issued this)) options) token) k /\
    forall env' this' (settled : Outcome IToolResult),
      run_state (run_sync env' this' (k settled))
      = set_tokenCountFuncs (delete (uuid (uuids_issued this))) this' /\
      run_calls (run_sync env' this' (k settled)) = [] /\
      forall key,
        key <> uuid (uuids_issued this) ->
        _tokenCountFuncs (run_state (run_sync env' this' (k settled))) !! key
        = _tokenCountFuncs this' !! key.
Proof.
  unfold run_sync at 1, invokeTool, request. simpl.
  destruct (tokenOptions options) as [supplied|]; simpl.
  all: eexists; split; [reflexivity|].
  all: intros env' this' [result|e]; simpl; (split; [done|]); (split; [done|]).
  all: intros key Hne; by apply lookup_delete_ne.
Qed.

(** *** The snapshot and the deltas *)

Lemma snapshot_lookup (tools : list IToolData) : forall (all : gmap string IToolData) key,
  foldl (fun m tool => <[id tool := revive tool]> m) all tools !! key
  = match listed tools key with
    | Some t => Some (revive t)
    | None => all !! key
    end.
Proof.
  unfold listed. induction tools as [|t tools IH]; intros all key; simpl; [done|].
  rewrite IH. rewrite filter_cons. destruct (decide (id t = key)) as [<-|Hne].
  - rewrite last_cons. destruct (last _); [done|]. by rewrite lookup_insert_eq.
  - destruct (last _); [done|]. by rewrite lookup_insert_ne.
Qed.

(** X10.  The snapshot fetched by the constructor.  When [$getTools] is fulfilled,
    each id the snapshot lists gets the revived descriptor listed last under
    it, over whatever a delta had stored there in the meantime; ids the
    snapshot does not list keep what they had; the other maps are untouched.
    When [$getTools] is rejected the object stays as it is. *)
Theorem constructor_snapshot env issued :
  exists k,
    run_status (run_sync env (ExtHostLanguageModelTools_fresh issued)
                  ExtHostLanguageModelTools_constructor)
    = Suspended (Sg := ToolSig) proxy_getTools k /\
    (forall env' this' tools key,
       _allTools (run_state (run_sync env' this' (k (Fulfilled tools)))) !! key
       = match listed tools key with
         | Some t => Some (revive t)
         | None => _allTools this' !! key
         end) /\
    (forall env' this' tools,
       _registeredTools (run_state (run_sync env' this' (k (Fulfilled tools))))
       = _registeredTools this' /\
       _tokenCountFuncs (run_state (run_sync env' this' (k (Fulfilled tools))))
       = _tokenCountFuncs this') /\
    forall env' this' e, run_state (run_sync env' this' (k (Rejected e))) = this'.
Proof.
  eexists. split; [reflexivity|]. split; [|split].
  - intros env' this' tools key. simpl. apply snapshot_lookup.
  - done.
  - done.
Qed.

Lemma acceptToolDelta_state env this delta :
  run_state (run_sync env this (rpc_acceptToolDelta delta))
  = set_allTools (delta_effect delta) this.
Proof.
  unfold run_sync, rpc_acceptToolDelta, delta_effect.
  destruct delta as [[t|] [x|]]; simpl; try destruct (truthy x); simpl; by destruct this.
Qed.

Lemma delta_effect_idemp delta (all : gmap string IToolData) :
  delta_effect delta (delta_effect delta all) = delta_effect delta all.
Proof.
  unfold delta_effect.
  destruct delta as [[t|] [x|]]; simpl; try destruct (truthy x); simpl; try done.
  all: apply map_eq; intros key.
  all: rewrite ?lookup_delete, ?lookup_insert, ?lookup_delete, ?lookup_insert.
  all: repeat case_decide; congruence.
Qed.

(** X11.  A delta is idempotent: delivered twice in a row, it leaves the object
    exactly as delivering it once does; this holds for every delta, with
    both fields, one, or none. *)
Theorem acceptToolDelta_twice env env' this delta :
  run_state (run_sync env' (run_state (run_sync env this (rpc_acceptToolDelta delta)))
               (rpc_acceptToolDelta delta))
  = run_state (run_sync env this (rpc_acceptToolDelta delta)).
Proof.
  rewrite !acceptToolDelta_state. unfold set_allTools. simpl.
  by rewrite delta_effect_idemp.
Qed.

(** X12.  A delta touches only the ids it names: every other id of the mirror
    table keeps its descriptor, the registered tools and the pending counting
    functions are untouched, and the call never fails. *)
Theorem acceptToolDelta_frame env this delta key :
  (forall t, added delta = Some t -> id t <> key) ->
  removed delta <> Some key ->
  _allTools (run_state (run_sync env this (rpc_acceptToolDelta delta))) !! key
  = _allTools this !! key /\
  _registeredTools (run_state (run_sync env this (rpc_acceptToolDelta delta)))
  = _registeredTools this /\
  _tokenCountFuncs (run_state (run_sync env this (rpc_acceptToolDelta delta)))
  = _tokenCountFuncs this /\
  run_outcome (run_sync env this (rpc_acceptToolDelta delta)) = Some (Fulfilled tt).
Proof.
  intros Hadded Hremoved.
  destruct (acceptToolDelta_run env this delta) as (Hout & _ & Hreg & Hfuncs & _ & Hall).
  split; [|done]. rewrite Hall.
  destruct delta as [[t|] [x|]]; simpl in *.
  - destruct (truthy x).
    + rewrite lookup_delete_ne by congruence. rewrite lookup_insert_ne; [done|]. by apply Hadded.
    + rewrite lookup_insert_ne; [done|]. by apply Hadded.
  - rewrite lookup_insert_ne; [done|]. by apply Hadded.
  - destruct (truthy x); [|done]. rewrite lookup_delete_ne by congruence. done.
  - done.
Qed.

(** *** No counting function outlives its invocation *)

Lemma shrinks_refl : Reflexive shrinks.
Proof. intros s key. by left. Qed.
#[local] Existing Instance shrinks_refl.

Lemma shrinks_same s s' : _tokenCountFuncs s' = _tokenCountFuncs s -> shrinks s s'.
Proof. intros Heq key. left. by rewrite Heq. Qed.

(** The first turn of a method: what it parks registers nothing later, and
    an entry it leaves behind was there before or belongs to what it parks. *)
Lemma entry_first_turn env s t :
  ExtHostLanguageModelTools_entry t ->
  Forall (fun t => guarantees shrinks (thread_prog t)) (park (run_sync env s (thread_prog t))) /\
  forall key,
    is_Some (_tokenCountFuncs (run_state (run_sync env s (thread_prog t))) !! key) ->
    is_Some (_tokenCountFuncs s !! key) \/
    exists T, T ∈ park (run_sync env s (thread_prog t)) /\ erases key T.
Proof.
  destruct 1 as [callId input token|toolId options token|delta|dto token
                |extension name tool|name]; simpl.
  - rewrite countTokensForInvokation_run.
    destruct (_tokenCountFuncs s !! callId) as [[h|origin]|] eqn:Hfn; simpl.
    + split; [|by left]. constructor; [|constructor]. simpl.
      intros s'. split; [reflexivity|]. intros [n|e] s''; simpl; reflexivity.
    + split; [|by left]. constructor; [|constructor]. simpl.
      intros s'. split; [reflexivity|]. intros [n|e] s''; simpl; reflexivity.
    + split; [constructor|by left].
  - unfold run_sync, invokeTool. simpl.
    assert (Hlater : forall (o : Outcome IToolResult) s',
      turn_ok shrinks s' s'
        (try_finally (result ← of_outcome o; Ret (LanguageModelToolResult_to result))
           (modify (Sg := ToolSig) (set_tokenCountFuncs (delete (uuid (uuids_issued s))))))).
    { intros [result|e] s' key; simpl;
        destruct (decide (key = uuid (uuids_issued s))) as [->|Hne].
      all: try (right; apply lookup_delete_eq).
      all: left; by apply lookup_delete_ne. }
    assert (Herases : forall (o : Outcome IToolResult) (env' : Oracle ToolSig) s',
      _tokenCountFuncs (run_state (run_sync env' s'
        (try_finally (result ← of_outcome o; Ret (LanguageModelToolResult_to result))
           (modify (Sg := ToolSig) (set_tokenCountFuncs (delete (uuid (uuids_issued s))))))))
        !! uuid (uuids_issued s) = None).
    { intros [result|e] env' s'; simpl; apply lookup_delete_eq. }
    destruct (tokenOptions options) as [supplied|]; simpl.
    + split.
      * constructor; [|constructor]. simpl. intros s'. split; [reflexivity|]. exact Hlater.
      * intros key Hkey. destruct (decide (key = uuid (uuids_issued s))) as [->|Hne].
        -- right. eexists. split; [apply list_elem_of_here|]. exact Herases.
        -- left. by rewrite lookup_insert_ne in Hkey.
    + split; [|by left].
      constructor; [|constructor]. simpl. intros s'. split; [reflexivity|]. exact Hlater.
  - rewrite acceptToolDelta_state.
    destruct (acceptToolDelta_run env s delta) as (Hout & _).
    unfold park. unfold run_outcome in Hout.
    destruct (run_status (run_sync env s (rpc_acceptToolDelta delta))); [|done].
    split; [constructor|]. intros key Hkey. by left.
  - unfold run_sync, rpc_invokeTool. simpl.
    destruct (_registeredTools s !! toolId dto); simpl; [|split; [constructor|by left]].
    split; [|by left]. constructor; [|constructor]. simpl.
    intros s'. split; [reflexivity|]. intros [result|e] s''; simpl; reflexivity.
  - split; [constructor|by left].
  - split; [constructor|by left].
Qed.

Lemma elem_of_delete_or {A} (l : list A) i x y :
  x ∈ l -> l !! i = Some y -> x = y \/ x ∈ delete i l.
Proof.
  intros [j Hj]%list_elem_of_lookup_1 Hi.
  destruct (decide (j = i)) as [->|Hne]; [left; congruence|]. right.
  destruct (decide (j < i)) as [Hlt|Hge].
  - apply (list_elem_of_lookup_2 _ j). by rewrite list_lookup_delete_lt.
  - destruct j as [|j]; [lia|].
    apply (list_elem_of_lookup_2 _ j). rewrite list_lookup_delete_ge by lia. done.
Qed.

Lemma in_flight_step c c' :
  only_shrinks c -> in_flight c -> tool_step c c' ->
  only_shrinks c' /\ in_flight c'.
Proof.
  intros Hpool Hown [n Hstep].
  destruct Hstep as [c env t Ht|c env i A w k o Hi|c s' Hother].
  - destruct (entry_first_turn env (heap c) t Ht) as [Hpark Hkeys].
    split; [unfold only_shrinks, start; simpl; by apply Forall_app|].
    intros key Hkey. unfold start in *. simpl in *.
    destruct (Hkeys key Hkey) as [Hold|(T & HT & Herases)].
    + destruct (Hown key Hold) as (T & HT & Herases).
      exists T. split; [|done]. apply elem_of_app. by left.
    + exists T. split; [|done]. apply elem_of_app. by right.
  - pose proof (Forall_lookup_1 _ _ _ _ Hpool Hi) as Hk. simpl in Hk.
    assert (Hko : guarantees shrinks (k o)).
    { intros s. apply (Hk s). }
    destruct (run_sync_turn shrinks env (heap c) (k o) Hko) as [Hshrink Hpark].
    split.
    { unfold only_shrinks, resume; simpl. apply Forall_app.
      split; [by apply Forall_delete|done]. }
    intros key Hkey. unfold resume in *. simpl in *.
    destruct (Hshrink key) as [Hsame|Hnone]; [|rewrite Hnone in Hkey; by destruct Hkey].
    rewrite Hsame in Hkey.
    destruct (Hown key Hkey) as (T & HT & Herases).
    destruct (elem_of_delete_or _ _ _ _ HT Hi) as [->|Hin].
    + assert (Hgone : _tokenCountFuncs (heap c) !! key = None).
      { etrans; [symmetry; exact Hsame|exact (Herases o env (heap c))]. }
      rewrite Hgone in Hkey. by destruct Hkey.
    + exists T. split; [|done]. apply elem_of_app. by left.
  - split; [exact Hpool|]. intros key Hkey. simpl in *.
    destruct Hother as (_ & Hfuncs & _). rewrite Hfuncs in Hkey. by apply Hown.
Qed.

Lemma in_flight_steps c c' :
  rtc tool_step c c' ->
  only_shrinks c /\ in_flight c -> only_shrinks c' /\ in_flight c'.
Proof.
  induction 1 as [c|c c1 c2 Hstep _ IH]; [done|].
  intros [Hpool Hown]. apply IH. by apply (in_flight_step c).
Qed.

(** X13.  The entries of [_tokenCountFuncs] belong to invocations in flight.  In
    every configuration an extension host can reach, each call id that has a
    counting function also has a suspended continuation that erases it when
    it resumes; so once nothing is suspended the map is empty. *)
Theorem tokenCountFuncs_in_flight env issued c :
  rtc tool_step (ExtHostLanguageModelTools_new env issued) c ->
  in_flight c /\ (pool c = [] -> _tokenCountFuncs (heap c) = ∅).
Proof.
  intros Hreach.
  assert (Hinv : only_shrinks c /\ in_flight c).
  { apply (in_flight_steps _ _ Hreach). split.
    - unfold only_shrinks, ExtHostLanguageModelTools_new, start; simpl.
      constructor; [|constructor]. simpl. intros s. split; [reflexivity|].
      intros [tools|e] s'; simpl; [|reflexivity]. by apply shrinks_same.
    - intros key [fn Hfn]. simpl in Hfn. by rewrite lookup_empty in Hfn. }
  destruct Hinv as [_ Hown]. split; [exact Hown|].
  intros Hempty. apply map_eq. intros key. rewrite lookup_empty.
  destruct (_tokenCountFuncs (heap c) !! key) as [fn|] eqn:Hfn; [|done].
  destruct (Hown key (ex_intro _ fn Hfn)) as (T & HT & _).
  rewrite Hempty in HT. by apply elem_of_nil in HT.
Qed.
End ToolMore.

(** *** Sample inputs *)


(** A tool of [busy_host] that fails: the caller of [invokeTool] gets the
    same error. *)
Lemma invokeTool_relays_tool_outcome_witness :
  _registeredTools busy_host !! "search"
  = Some (MkRegisteredTool (ExtensionDescription "ext") (Tool 1)) /\
  exists k served k',
    run_status (run_sync silent_proxy busy_host
                  (invokeTool (H := decimal_imports) "search" plain_options
                     CancellationToken_None))
    = Suspended (Sg := ToolSig)
        (proxy_invokeTool
           (request "search" (uuid (Imports := decimal_imports) (uuids_issued busy_host))
              plain_options)
           CancellationToken_None) k /\
    run_status (run_sync silent_proxy busy_host
                  (rpc_invokeTool (H := decimal_imports)
                     (request "search" (uuid (Imports := decimal_imports) (uuids_issued busy_host))
                        plain_options)
                     CancellationToken_None))
    = Suspended (Sg := ToolSig) (tool_invoke (Tool 1) served CancellationToken_None) k' /\
    exists relayed,
      run_outcome (run_sync silent_proxy busy_host (k' (Rejected (Error "boom"))))
      = Some relayed /\
      run_outcome (run_sync silent_proxy busy_host (k relayed))
      = Some (Rejected (Error "boom")).
Proof.
  split; [reflexivity|].
  exact (invokeTool_relays_tool_outcome (H := decimal_imports)
           silent_proxy silent_proxy silent_proxy silent_proxy
           busy_host busy_host busy_host busy_host "search" plain_options
           CancellationToken_None (MkRegisteredTool (ExtensionDescription "ext") (Tool 1))
           (Rejected (Error "boom")) eq_refl).
Defined.

(** The text "hello", counted for call id "7" of [busy_host] with no token
    passed, reaches counting function 3 unchanged. *)
Lemma countTokens_bridge_witness :
  _tokenCountFuncs busy_host !! "7" = Some (countTokens_of 3) /\
  exists input,
    run_wait (run_sync silent_proxy busy_host
                (apply_countTokens (H := decimal_imports) (countTokens_via_proxy "7")
                   (inl "hello") None))
    = Some (proxy_countTokensForInvokation "7" input CancellationToken_None) /\
    run_wait (run_sync silent_proxy busy_host
                (rpc_countTokensForInvokation (H := decimal_imports) "7" input
                   CancellationToken_None))
    = Some (countTokens_apply 3 (inl "hello") (Some CancellationToken_None)).
Proof.
  split; [reflexivity|].
  exact (countTokens_bridge (H := decimal_imports) silent_proxy silent_proxy busy_host busy_host
           "7" (countTokens_of 3) (inl "hello") None eq_refl).
Defined.

(** [grep_delta] leaves "search" of [mirror_host] alone. *)
Lemma acceptToolDelta_frame_witness :
  removed grep_delta <> Some "search" /\
  _allTools (run_state (run_sync silent_proxy mirror_host (rpc_acceptToolDelta grep_delta)))
    !! "search" = Some search_tool.
Proof.
  assert (Hadded : forall t, added grep_delta = Some t -> id t <> "search").
  { intros t Ht. injection Ht as <-. discriminate. }
  assert (Hremoved : removed grep_delta <> Some "search") by discriminate.
  split; [exact Hremoved|].
  exact (proj1 (acceptToolDelta_frame silent_proxy mirror_host grep_delta "search"
                  Hadded Hremoved)).
Defined.

(** A new extension host with one invocation in flight. *)
Lemma tokenCountFuncs_in_flight_witness :
  rtc (tool_step (H := decimal_imports))
    (ExtHostLanguageModelTools_new (H := decimal_imports) silent_proxy 0)
    (start silent_proxy (ExtHostLanguageModelTools_new (H := decimal_imports) silent_proxy 0)
       (invokeTool (H := decimal_imports) "search" metered_options CancellationToken_None)) /\
  in_flight
    (start silent_proxy (ExtHostLanguageModelTools_new (H := decimal_imports) silent_proxy 0)
       (invokeTool (H := decimal_imports) "search" metered_options CancellationToken_None)).
Proof.
  assert (Hreach : rtc (tool_step (H := decimal_imports))
    (ExtHostLanguageModelTools_new (H := decimal_imports) silent_proxy 0)
    (start silent_proxy (ExtHostLanguageModelTools_new (H := decimal_imports) silent_proxy 0)
       (invokeTool (H := decimal_imports) "search" metered_options CancellationToken_None))).
  { apply rtc_once. apply start_invokeTool_step. }
  split; [exact Hreach|].
  exact (proj1 (tokenCountFuncs_in_flight (H := decimal_imports) silent_proxy 0 _ Hreach)).
Defined.
